(** * VC-Intelligence: the context builder, the search aggregator and the
      answer orchestrator of [src/main.py]

    The class [VCDatabase] is embedded method by method.

    - Python values are the type [pyval].  A string is the [string] of the
      bytes of its UTF-8 form, and [len], slicing, [str.strip],
      [str.lower] and [repr] act on the characters that the bytes encode,
      with the tables of the Unicode character database written out.
      Numbers are the integers.
    - A [dict] that the code only reads with [.get] is a [gmap string pyval];
      a [dict] met as a value is an association list, since printing it
      shows the order of its keys.
    - An exception is a value of [exn]; code that can raise returns a
      [result], and every [try]/[except] of the source is a [match] on it.
    - The services the code talks to (the table store, the three search
      back ends, the model API, the environment variables and the clock) are
      the fields of a [world]; a JSON body is typed by the shape the code
      reads, and a body of another shape is a reply whose reading raises.
    - Every call that leaves the process is recorded in a trace of [event]s,
      and so is every provider method that [web_search] enters.
    - The console output of [print] is not modelled. *)

From Stdlib Require Import ZArith NArith String Ascii List Bool Lia DecimalString.
From stdpp Require Import base option gmap strings list.

Set Warnings "-register-all".
Open Scope string_scope.

(** ** Exceptions and results *)

(** The classes the handlers of the source tell apart, each with its
    [str(e)]. *)
Inductive exn : Type :=
| Timeout (msg : string)            (* requests.Timeout *)
| RequestException (msg : string)   (* any other requests.RequestException *)
| ImportError (msg : string)
| OtherException (msg : string).    (* TypeError, KeyError, ValueError, ... *)

Definition exn_str (e : exn) : string :=
  match e with
  | Timeout m | RequestException m | ImportError m | OtherException m => m
  end.

Inductive result (A : Type) : Type :=
| Ok (a : A)
| Raise (e : exn).
Arguments Ok {A} a.
Arguments Raise {A} e.

#[global] Instance result_ret : MRet result := fun A a => Ok a.
#[global] Instance result_bind : MBind result := fun A B f m =>
  match m with
  | Ok a => f a
  | Raise e => Raise e
  end.

(** [for x in l: s = body(s, x)], stopping at the first exception. *)
Fixpoint for_each {A S : Type} (body : S -> A -> result S) (s : S) (l : list A)
  : result S :=
  match l with
  | [] => Ok s
  | x :: l' => s' ← body s x; for_each body s' l'
  end.

(** ** Strings

    A Python string is a sequence of Unicode characters.  It is embedded as
    the [string] of the bytes of its UTF-8 form (a lone surrogate, which
    Python allows, in the three bytes of its number), so that every ASCII
    character is one [ascii] and any other character is a lead byte and
    one to three continuation bytes.  The operations below are those of
    Python on the string that the bytes encode. *)

Definition nl : string := String "010" EmptyString.

Definition code (c : ascii) : N := N_of_ascii c.

(** The bytes [10xxxxxx], which continue a character. *)
Definition is_cont (c : ascii) : bool := (128 <=? code c)%N && (code c <? 192)%N.

(** [len(s)]: the number of characters. *)
Fixpoint str_len (s : string) : nat :=
  match s with
  | EmptyString => 0
  | String c s' => if is_cont c then str_len s' else S (str_len s')
  end.

(** [s[:n]] on a string: its first [n] characters. *)
Fixpoint str_take (n : nat) (s : string) : string :=
  match s with
  | EmptyString => EmptyString
  | String c s' =>
      if is_cont c then String c (str_take n s')
      else
        match n with
        | S n' => String c (str_take n' s')
        | 0 => EmptyString
        end
  end.

(** [term in s] on strings. *)
Fixpoint contains (term s : string) : bool :=
  String.prefix term s ||
  match s with
  | EmptyString => false
  | String _ s' => contains term s'
  end.

(** The character at the head of a string: its code point, and the number
    of continuation bytes that follow its first byte.  [None] on the empty
    string and on bytes that encode no character. *)
Definition head_char (s : string) : option (N * nat) :=
  match s with
  | EmptyString => None
  | String c s1 =>
      let b := code c in
      if (b <? 128)%N then Some (b, 0)
      else if (b <? 194)%N then None
      else if (b <? 224)%N then
        match s1 with
        | String d _ =>
            if is_cont d then Some (((b - 192) * 64 + (code d - 128))%N, 1)
            else None
        | _ => None
        end
      else if (b <? 240)%N then
        match s1 with
        | String d (String e _) =>
            let cp := ((b - 224) * 4096 + (code d - 128) * 64 + (code e - 128))%N in
            if is_cont d && is_cont e && (2048 <=? cp)%N then Some (cp, 2)
            else None
        | _ => None
        end
      else
        match s1 with
        | String d (String e (String f _)) =>
            let cp := ((b - 240) * 262144 + (code d - 128) * 4096
                       + (code e - 128) * 64 + (code f - 128))%N in
            if is_cont d && is_cont e && is_cont f
               && (65536 <=? cp)%N && (cp <? 1114112)%N
            then Some (cp, 3)
            else None
        | _ => None
        end
  end.

(** [s] starts with [k] continuation bytes. *)
Fixpoint continued (k : nat) (s : string) : bool :=
  match k, s with
  | 0, _ => true
  | S k', String c s' => is_cont c && continued k' s'
  | S _, EmptyString => false
  end.

(** The UTF-8 form of a code point. *)
Definition encode (cp : N) : string :=
  if (cp <? 128)%N then String (ascii_of_N cp) EmptyString
  else if (cp <? 2048)%N then
    String (ascii_of_N (192 + cp / 64))
      (String (ascii_of_N (128 + cp mod 64)) EmptyString)
  else if (cp <? 65536)%N then
    String (ascii_of_N (224 + cp / 4096))
      (String (ascii_of_N (128 + cp / 64 mod 64))
         (String (ascii_of_N (128 + cp mod 64)) EmptyString))
  else
    String (ascii_of_N (240 + cp / 262144))
      (String (ascii_of_N (128 + cp / 4096 mod 64))
         (String (ascii_of_N (128 + cp / 64 mod 64))
            (String (ascii_of_N (128 + cp mod 64)) EmptyString))).

Definition in_ranges (ranges : list (N * N)) (cp : N) : bool :=
  existsb (fun '(lo, hi) => (lo <=? cp)%N && (cp <=? hi)%N) ranges.

(** *** [s.strip()]

    The characters that [str.strip] removes: those for which
    [str.isspace] holds. *)
Definition whitespace : list N :=
  [ 9; 10; 11; 12; 13; 28; 29; 30; 31; 32; 133; 160; 5760;
    8192; 8193; 8194; 8195; 8196; 8197; 8198; 8199; 8200; 8201; 8202;
    8232; 8233; 8239; 8287; 12288 ]%N.

(** The number of bytes of the blank at the head of [s]; [0] if [s] does
    not start with a blank. *)
Definition blank_width (s : string) : nat :=
  match head_char s with
  | Some (cp, k) => if existsb (N.eqb cp) whitespace then S k else 0
  | None => 0
  end.

(** [lstrip_from skip s]: [s] without its first [skip] bytes and the
    blanks after them. *)
Fixpoint lstrip_from (skip : nat) (s : string) : string :=
  match s with
  | EmptyString => EmptyString
  | String _ s' =>
      match skip with
      | S k => lstrip_from k s'
      | 0 =>
          match blank_width s with
          | S k => lstrip_from k s'
          | 0 => s
          end
      end
  end.

Definition lstrip (s : string) : string := lstrip_from 0 s.

(** A string of blanks only has no last character to keep. *)
Fixpoint rstrip (s : string) : string :=
  match s with
  | EmptyString => EmptyString
  | String c s' =>
      match lstrip s with
      | EmptyString => EmptyString
      | String _ _ => String c (rstrip s')
      end
  end.

(** [s.strip()]. *)
Definition strip (s : string) : string := rstrip (lstrip s).

Definition str_nonempty (s : string) : bool :=
  match s with
  | EmptyString => false
  | String _ _ => true
  end.

(** *** [s.lower()]

    [str.lower] maps every character through the lower-case mapping of the
    Unicode character database, and the capital sigma by its place in the
    word.  The three tables are those of Unicode 14.0, each over the whole
    range of code points: later versions of the database extend them to
    characters that were not assigned in it. *)

(** [(lo, hi, step, to)]: every [step]-th code point from [lo] to [hi]
    has the lower case [to + (cp - lo)]. *)
Definition lower_runs : list (N * N * N * N) :=
  [
    (65, 90, 1, 97); (192, 214, 1, 224); (216, 222, 1, 248);
    (256, 302, 2, 257); (306, 310, 2, 307); (313, 327, 2, 314);
    (330, 374, 2, 331); (376, 376, 1, 255); (377, 381, 2, 378);
    (385, 385, 1, 595); (386, 388, 2, 387); (390, 390, 1, 596);
    (391, 391, 1, 392); (393, 394, 1, 598); (395, 395, 1, 396);
    (398, 398, 1, 477); (399, 399, 1, 601); (400, 400, 1, 603);
    (401, 401, 1, 402); (403, 403, 1, 608); (404, 404, 1, 611);
    (406, 406, 1, 617); (407, 407, 1, 616); (408, 408, 1, 409);
    (412, 412, 1, 623); (413, 413, 1, 626); (415, 415, 1, 629);
    (416, 420, 2, 417); (422, 422, 1, 640); (423, 423, 1, 424);
    (425, 425, 1, 643); (428, 428, 1, 429); (430, 430, 1, 648);
    (431, 431, 1, 432); (433, 434, 1, 650); (435, 437, 2, 436);
    (439, 439, 1, 658); (440, 440, 1, 441); (444, 444, 1, 445);
    (452, 452, 1, 454); (453, 453, 1, 454); (455, 455, 1, 457);
    (456, 456, 1, 457); (458, 458, 1, 460); (459, 475, 2, 460);
    (478, 494, 2, 479); (497, 497, 1, 499); (498, 500, 2, 499);
    (502, 502, 1, 405); (503, 503, 1, 447); (504, 542, 2, 505);
    (544, 544, 1, 414); (546, 562, 2, 547); (570, 570, 1, 11365);
    (571, 571, 1, 572); (573, 573, 1, 410); (574, 574, 1, 11366);
    (577, 577, 1, 578); (579, 579, 1, 384); (580, 580, 1, 649);
    (581, 581, 1, 652); (582, 590, 2, 583); (880, 882, 2, 881);
    (886, 886, 1, 887); (895, 895, 1, 1011); (902, 902, 1, 940);
    (904, 906, 1, 941); (908, 908, 1, 972); (910, 911, 1, 973);
    (913, 929, 1, 945); (932, 939, 1, 964); (975, 975, 1, 983);
    (984, 1006, 2, 985); (1012, 1012, 1, 952); (1015, 1015, 1, 1016);
    (1017, 1017, 1, 1010); (1018, 1018, 1, 1019); (1021, 1023, 1, 891);
    (1024, 1039, 1, 1104); (1040, 1071, 1, 1072); (1120, 1152, 2, 1121);
    (1162, 1214, 2, 1163); (1216, 1216, 1, 1231); (1217, 1229, 2, 1218);
    (1232, 1326, 2, 1233); (1329, 1366, 1, 1377); (4256, 4293, 1, 11520);
    (4295, 4295, 1, 11559); (4301, 4301, 1, 11565); (5024, 5103, 1, 43888);
    (5104, 5109, 1, 5112); (7312, 7354, 1, 4304); (7357, 7359, 1, 4349);
    (7680, 7828, 2, 7681); (7838, 7838, 1, 223); (7840, 7934, 2, 7841);
    (7944, 7951, 1, 7936); (7960, 7965, 1, 7952); (7976, 7983, 1, 7968);
    (7992, 7999, 1, 7984); (8008, 8013, 1, 8000); (8025, 8031, 2, 8017);
    (8040, 8047, 1, 8032); (8072, 8079, 1, 8064); (8088, 8095, 1, 8080);
    (8104, 8111, 1, 8096); (8120, 8121, 1, 8112); (8122, 8123, 1, 8048);
    (8124, 8124, 1, 8115); (8136, 8139, 1, 8050); (8140, 8140, 1, 8131);
    (8152, 8153, 1, 8144); (8154, 8155, 1, 8054); (8168, 8169, 1, 8160);
    (8170, 8171, 1, 8058); (8172, 8172, 1, 8165); (8184, 8185, 1, 8056);
    (8186, 8187, 1, 8060); (8188, 8188, 1, 8179); (8486, 8486, 1, 969);
    (8490, 8490, 1, 107); (8491, 8491, 1, 229); (8498, 8498, 1, 8526);
    (8544, 8559, 1, 8560); (8579, 8579, 1, 8580); (9398, 9423, 1, 9424);
    (11264, 11311, 1, 11312); (11360, 11360, 1, 11361);
    (11362, 11362, 1, 619); (11363, 11363, 1, 7549); (11364, 11364, 1, 637);
    (11367, 11371, 2, 11368); (11373, 11373, 1, 593); (11374, 11374, 1, 625);
    (11375, 11375, 1, 592); (11376, 11376, 1, 594); (11378, 11378, 1, 11379);
    (11381, 11381, 1, 11382); (11390, 11391, 1, 575);
    (11392, 11490, 2, 11393); (11499, 11501, 2, 11500);
    (11506, 11506, 1, 11507); (42560, 42604, 2, 42561);
    (42624, 42650, 2, 42625); (42786, 42798, 2, 42787);
    (42802, 42862, 2, 42803); (42873, 42875, 2, 42874);
    (42877, 42877, 1, 7545); (42878, 42886, 2, 42879);
    (42891, 42891, 1, 42892); (42893, 42893, 1, 613);
    (42896, 42898, 2, 42897); (42902, 42920, 2, 42903);
    (42922, 42922, 1, 614); (42923, 42923, 1, 604); (42924, 42924, 1, 609);
    (42925, 42925, 1, 620); (42926, 42926, 1, 618); (42928, 42928, 1, 670);
    (42929, 42929, 1, 647); (42930, 42930, 1, 669); (42931, 42931, 1, 43859);
    (42932, 42946, 2, 42933); (42948, 42948, 1, 42900);
    (42949, 42949, 1, 642); (42950, 42950, 1, 7566); (42951, 42953, 2, 42952);
    (42960, 42960, 1, 42961); (42966, 42968, 2, 42967);
    (42997, 42997, 1, 42998); (65313, 65338, 1, 65345);
    (66560, 66599, 1, 66600); (66736, 66771, 1, 66776);
    (66928, 66938, 1, 66967); (66940, 66954, 1, 66979);
    (66956, 66962, 1, 66995); (66964, 66965, 1, 67003);
    (68736, 68786, 1, 68800); (71840, 71871, 1, 71872);
    (93760, 93791, 1, 93792); (125184, 125217, 1, 125218) ]%N.

(** The case-ignorable characters: marks, modifier letters, format
    characters and the punctuation that may stand inside a word. *)
Definition case_ignorable_ranges : list (N * N) :=
  [
    (39, 39); (46, 46); (58, 58); (94, 94); (96, 96); (168, 168); (173, 173);
    (175, 175); (180, 180); (183, 184); (688, 879); (884, 885); (890, 890);
    (900, 901); (903, 903); (1155, 1161); (1369, 1369); (1375, 1375);
    (1425, 1469); (1471, 1471); (1473, 1474); (1476, 1477); (1479, 1479);
    (1524, 1524); (1536, 1541); (1552, 1562); (1564, 1564); (1600, 1600);
    (1611, 1631); (1648, 1648); (1750, 1757); (1759, 1768); (1770, 1773);
    (1807, 1807); (1809, 1809); (1840, 1866); (1958, 1968); (2027, 2037);
    (2042, 2042); (2045, 2045); (2070, 2093); (2137, 2139); (2184, 2184);
    (2192, 2193); (2200, 2207); (2249, 2306); (2362, 2362); (2364, 2364);
    (2369, 2376); (2381, 2381); (2385, 2391); (2402, 2403); (2417, 2417);
    (2433, 2433); (2492, 2492); (2497, 2500); (2509, 2509); (2530, 2531);
    (2558, 2558); (2561, 2562); (2620, 2620); (2625, 2626); (2631, 2632);
    (2635, 2637); (2641, 2641); (2672, 2673); (2677, 2677); (2689, 2690);
    (2748, 2748); (2753, 2757); (2759, 2760); (2765, 2765); (2786, 2787);
    (2810, 2815); (2817, 2817); (2876, 2876); (2879, 2879); (2881, 2884);
    (2893, 2893); (2901, 2902); (2914, 2915); (2946, 2946); (3008, 3008);
    (3021, 3021); (3072, 3072); (3076, 3076); (3132, 3132); (3134, 3136);
    (3142, 3144); (3146, 3149); (3157, 3158); (3170, 3171); (3201, 3201);
    (3260, 3260); (3263, 3263); (3270, 3270); (3276, 3277); (3298, 3299);
    (3328, 3329); (3387, 3388); (3393, 3396); (3405, 3405); (3426, 3427);
    (3457, 3457); (3530, 3530); (3538, 3540); (3542, 3542); (3633, 3633);
    (3636, 3642); (3654, 3662); (3761, 3761); (3764, 3772); (3782, 3782);
    (3784, 3789); (3864, 3865); (3893, 3893); (3895, 3895); (3897, 3897);
    (3953, 3966); (3968, 3972); (3974, 3975); (3981, 3991); (3993, 4028);
    (4038, 4038); (4141, 4144); (4146, 4151); (4153, 4154); (4157, 4158);
    (4184, 4185); (4190, 4192); (4209, 4212); (4226, 4226); (4229, 4230);
    (4237, 4237); (4253, 4253); (4348, 4348); (4957, 4959); (5906, 5908);
    (5938, 5939); (5970, 5971); (6002, 6003); (6068, 6069); (6071, 6077);
    (6086, 6086); (6089, 6099); (6103, 6103); (6109, 6109); (6155, 6159);
    (6211, 6211); (6277, 6278); (6313, 6313); (6432, 6434); (6439, 6440);
    (6450, 6450); (6457, 6459); (6679, 6680); (6683, 6683); (6742, 6742);
    (6744, 6750); (6752, 6752); (6754, 6754); (6757, 6764); (6771, 6780);
    (6783, 6783); (6823, 6823); (6832, 6862); (6912, 6915); (6964, 6964);
    (6966, 6970); (6972, 6972); (6978, 6978); (7019, 7027); (7040, 7041);
    (7074, 7077); (7080, 7081); (7083, 7085); (7142, 7142); (7144, 7145);
    (7149, 7149); (7151, 7153); (7212, 7219); (7222, 7223); (7288, 7293);
    (7376, 7378); (7380, 7392); (7394, 7400); (7405, 7405); (7412, 7412);
    (7416, 7417); (7468, 7530); (7544, 7544); (7579, 7679); (8125, 8125);
    (8127, 8129); (8141, 8143); (8157, 8159); (8173, 8175); (8189, 8190);
    (8203, 8207); (8216, 8217); (8228, 8228); (8231, 8231); (8234, 8238);
    (8288, 8292); (8294, 8303); (8305, 8305); (8319, 8319); (8336, 8348);
    (8400, 8432); (11388, 11389); (11503, 11505); (11631, 11631);
    (11647, 11647); (11744, 11775); (11823, 11823); (12293, 12293);
    (12330, 12333); (12337, 12341); (12347, 12347); (12441, 12446);
    (12540, 12542); (40981, 40981); (42232, 42237); (42508, 42508);
    (42607, 42610); (42612, 42621); (42623, 42623); (42652, 42655);
    (42736, 42737); (42752, 42785); (42864, 42864); (42888, 42890);
    (42994, 42996); (43000, 43001); (43010, 43010); (43014, 43014);
    (43019, 43019); (43045, 43046); (43052, 43052); (43204, 43205);
    (43232, 43249); (43263, 43263); (43302, 43309); (43335, 43345);
    (43392, 43394); (43443, 43443); (43446, 43449); (43452, 43453);
    (43471, 43471); (43493, 43494); (43561, 43566); (43569, 43570);
    (43573, 43574); (43587, 43587); (43596, 43596); (43632, 43632);
    (43644, 43644); (43696, 43696); (43698, 43700); (43703, 43704);
    (43710, 43711); (43713, 43713); (43741, 43741); (43756, 43757);
    (43763, 43764); (43766, 43766); (43867, 43871); (43881, 43883);
    (44005, 44005); (44008, 44008); (44013, 44013); (64286, 64286);
    (64434, 64450); (65024, 65039); (65043, 65043); (65056, 65071);
    (65106, 65106); (65109, 65109); (65279, 65279); (65287, 65287);
    (65294, 65294); (65306, 65306); (65342, 65342); (65344, 65344);
    (65392, 65392); (65438, 65439); (65507, 65507); (65529, 65531);
    (66045, 66045); (66272, 66272); (66422, 66426); (67456, 67461);
    (67463, 67504); (67506, 67514); (68097, 68099); (68101, 68102);
    (68108, 68111); (68152, 68154); (68159, 68159); (68325, 68326);
    (68900, 68903); (69291, 69292); (69446, 69456); (69506, 69509);
    (69633, 69633); (69688, 69702); (69744, 69744); (69747, 69748);
    (69759, 69761); (69811, 69814); (69817, 69818); (69821, 69821);
    (69826, 69826); (69837, 69837); (69888, 69890); (69927, 69931);
    (69933, 69940); (70003, 70003); (70016, 70017); (70070, 70078);
    (70089, 70092); (70095, 70095); (70191, 70193); (70196, 70196);
    (70198, 70199); (70206, 70206); (70367, 70367); (70371, 70378);
    (70400, 70401); (70459, 70460); (70464, 70464); (70502, 70508);
    (70512, 70516); (70712, 70719); (70722, 70724); (70726, 70726);
    (70750, 70750); (70835, 70840); (70842, 70842); (70847, 70848);
    (70850, 70851); (71090, 71093); (71100, 71101); (71103, 71104);
    (71132, 71133); (71219, 71226); (71229, 71229); (71231, 71232);
    (71339, 71339); (71341, 71341); (71344, 71349); (71351, 71351);
    (71453, 71455); (71458, 71461); (71463, 71467); (71727, 71735);
    (71737, 71738); (71995, 71996); (71998, 71998); (72003, 72003);
    (72148, 72151); (72154, 72155); (72160, 72160); (72193, 72202);
    (72243, 72248); (72251, 72254); (72263, 72263); (72273, 72278);
    (72281, 72283); (72330, 72342); (72344, 72345); (72752, 72758);
    (72760, 72765); (72767, 72767); (72850, 72871); (72874, 72880);
    (72882, 72883); (72885, 72886); (73009, 73014); (73018, 73018);
    (73020, 73021); (73023, 73029); (73031, 73031); (73104, 73105);
    (73109, 73109); (73111, 73111); (73459, 73460); (78896, 78904);
    (92912, 92916); (92976, 92982); (92992, 92995); (94031, 94031);
    (94095, 94111); (94176, 94177); (94179, 94180); (110576, 110579);
    (110581, 110587); (110589, 110590); (113821, 113822); (113824, 113827);
    (118528, 118573); (118576, 118598); (119143, 119145); (119155, 119170);
    (119173, 119179); (119210, 119213); (119362, 119364); (121344, 121398);
    (121403, 121452); (121461, 121461); (121476, 121476); (121499, 121503);
    (121505, 121519); (122880, 122886); (122888, 122904); (122907, 122913);
    (122915, 122916); (122918, 122922); (123184, 123197); (123566, 123566);
    (123628, 123631); (125136, 125142); (125252, 125259); (127995, 127999);
    (917505, 917505); (917536, 917631); (917760, 917999) ]%N.

(** The cased characters (letters with a case, and the characters with the
    properties Lowercase or Uppercase) that are not case-ignorable. *)
Definition cased_ranges : list (N * N) :=
  [
    (65, 90); (97, 122); (170, 170); (181, 181); (186, 186); (192, 214);
    (216, 246); (248, 442); (444, 447); (452, 659); (661, 687); (880, 883);
    (886, 887); (891, 893); (895, 895); (902, 902); (904, 906); (908, 908);
    (910, 929); (931, 1013); (1015, 1153); (1162, 1327); (1329, 1366);
    (1376, 1416); (4256, 4293); (4295, 4295); (4301, 4301); (4304, 4346);
    (4349, 4351); (5024, 5109); (5112, 5117); (7296, 7304); (7312, 7354);
    (7357, 7359); (7424, 7467); (7531, 7543); (7545, 7578); (7680, 7957);
    (7960, 7965); (7968, 8005); (8008, 8013); (8016, 8023); (8025, 8025);
    (8027, 8027); (8029, 8029); (8031, 8061); (8064, 8116); (8118, 8124);
    (8126, 8126); (8130, 8132); (8134, 8140); (8144, 8147); (8150, 8155);
    (8160, 8172); (8178, 8180); (8182, 8188); (8450, 8450); (8455, 8455);
    (8458, 8467); (8469, 8469); (8473, 8477); (8484, 8484); (8486, 8486);
    (8488, 8488); (8490, 8493); (8495, 8500); (8505, 8505); (8508, 8511);
    (8517, 8521); (8526, 8526); (8544, 8575); (8579, 8580); (9398, 9449);
    (11264, 11387); (11390, 11492); (11499, 11502); (11506, 11507);
    (11520, 11557); (11559, 11559); (11565, 11565); (42560, 42605);
    (42624, 42651); (42786, 42863); (42865, 42887); (42891, 42894);
    (42896, 42954); (42960, 42961); (42963, 42963); (42965, 42969);
    (42997, 42998); (43002, 43002); (43824, 43866); (43872, 43880);
    (43888, 43967); (64256, 64262); (64275, 64279); (65313, 65338);
    (65345, 65370); (66560, 66639); (66736, 66771); (66776, 66811);
    (66928, 66938); (66940, 66954); (66956, 66962); (66964, 66965);
    (66967, 66977); (66979, 66993); (66995, 67001); (67003, 67004);
    (68736, 68786); (68800, 68850); (71840, 71903); (93760, 93823);
    (119808, 119892); (119894, 119964); (119966, 119967); (119970, 119970);
    (119973, 119974); (119977, 119980); (119982, 119993); (119995, 119995);
    (119997, 120003); (120005, 120069); (120071, 120074); (120077, 120084);
    (120086, 120092); (120094, 120121); (120123, 120126); (120128, 120132);
    (120134, 120134); (120138, 120144); (120146, 120485); (120488, 120512);
    (120514, 120538); (120540, 120570); (120572, 120596); (120598, 120628);
    (120630, 120654); (120656, 120686); (120688, 120712); (120714, 120744);
    (120746, 120770); (120772, 120779); (122624, 122633); (122635, 122654);
    (125184, 125251); (127280, 127305); (127312, 127337); (127344, 127369) ]%N.

(** The lower case of one character.  The capital I with a dot is the one
    character whose lower case is two characters. *)
Definition lower_cp (cp : N) : list N :=
  if (cp =? 304)%N then [105; 775]%N
  else
    match
      find (fun '(lo, hi, step, _) =>
              (lo <=? cp)%N && (cp <=? hi)%N && ((cp - lo) mod step =? 0)%N)
           lower_runs
    with
    | Some (lo, _, _, to) => [(to + (cp - lo))%N]
    | None => [cp]
    end.

Definition case_ignorable (cp : N) : bool := in_ranges case_ignorable_ranges cp.

(** The cased characters that are not case-ignorable. *)
Definition cased (cp : N) : bool := in_ranges cased_ranges cp.

Definition capital_sigma : N := 931.
Definition small_sigma : N := 963.
Definition final_sigma : N := 962.

(** What follows a capital sigma, after [skip] more bytes, lets it end a
    word: case-ignorable characters and then no cased character. *)
Fixpoint final_after (skip : nat) (s : string) : bool :=
  match s with
  | EmptyString => true
  | String _ s' =>
      match skip with
      | S k => final_after k s'
      | 0 =>
          match head_char s with
          | Some (cp, k) =>
              if case_ignorable cp then final_after k s' else negb (cased cp)
          | None => true
          end
      end
  end.

(** [lower_from skip prev s]: the lower case of [s] without its first
    [skip] bytes, where [prev] tells whether the nearest character before
    them that is not case-ignorable is cased.  A capital sigma becomes the
    final sigma when it follows a cased character and ends a word. *)
Fixpoint lower_from (skip : nat) (prev : bool) (s : string) : string :=
  match s with
  | EmptyString => EmptyString
  | String c s' =>
      match skip with
      | S k => lower_from k prev s'
      | 0 =>
          match head_char s with
          | Some (cp, k) =>
              let mapped :=
                if (cp =? capital_sigma)%N then
                  if prev && final_after k s' then [final_sigma] else [small_sigma]
                else lower_cp cp in
              String.concat EmptyString (map encode mapped)
              +:+ lower_from k (if case_ignorable cp then prev else cased cp) s'
          | None => String c (lower_from 0 false s')
          end
      end
  end.

(** [s.lower()]. *)
Definition str_lower (s : string) : string := lower_from 0 false s.

(** A text of ASCII characters only. *)
Definition ascii_text (s : string) : bool :=
  forallb (fun c => (code c <? 128)%N) (list_ascii_of_string s).

(** The lower case of the letters A to Z alone: on a text of ASCII
    characters it is [s.lower()], and on any other text it changes the case
    of the ASCII letters only. *)
Definition lower_char (c : ascii) : ascii :=
  let n := nat_of_ascii c in
  if (65 <=? n)%nat && (n <=? 90)%nat then ascii_of_nat (n + 32) else c.

Fixpoint lower (s : string) : string :=
  match s with
  | EmptyString => EmptyString
  | String c s' => String (lower_char c) (lower s')
  end.

(** ** Python values

    The values that a JSON body holds, as Python reads them: null, the
    truth values, whole numbers, texts, arrays and objects.  A number with
    a fraction (a Python float) is left out. *)

Inductive pyval : Type :=
| VNone
| VBool (b : bool)
| VInt (z : Z)
| VStr (s : string)
| VList (l : list pyval)
| VDict (d : list (string * pyval)).

(** [bool(v)]: what [if v], [not v] and [v or w] test. *)
Definition truthy (v : pyval) : bool :=
  match v with
  | VNone => false
  | VBool b => b
  | VInt z => negb (z =? 0)%Z
  | VStr s => str_nonempty s
  | VList l => match l with [] => false | _ :: _ => true end
  | VDict d => match d with [] => false | _ :: _ => true end
  end.

(** [v or w]. *)
Definition py_or (v w : pyval) : pyval := if truthy v then v else w.
Infix "|||" := py_or (at level 50, left associativity).

Definition int_str (z : Z) : string := NilZero.string_of_int (Z.to_int z).

Definition squote : ascii := "039".
Definition dquote : ascii := "034".
Definition backslash : ascii := "092".

Definition has_char (c : ascii) (s : string) : bool :=
  existsb (Ascii.eqb c) (list_ascii_of_string s).

Definition hex_digit (n : N) : ascii :=
  nth (N.to_nat n) (list_ascii_of_string "0123456789abcdef") "0"%char.

(** The last [digits] hexadecimal digits of [n]. *)
Fixpoint hex (digits : nat) (n : N) : string :=
  match digits with
  | 0 => EmptyString
  | S d => hex d (n / 16) +:+ String (hex_digit (n mod 16)) EmptyString
  end.

(** The characters for which [str.isprintable] fails (Unicode 14.0):
    controls, format characters, separators other than the space,
    surrogates, private-use and unassigned code points. *)
Definition unprintable_ranges : list (N * N) :=
  [
    (0, 31); (127, 160); (173, 173); (888, 889); (896, 899); (907, 907);
    (909, 909); (930, 930); (1328, 1328); (1367, 1368); (1419, 1420);
    (1424, 1424); (1480, 1487); (1515, 1518); (1525, 1541); (1564, 1564);
    (1757, 1757); (1806, 1807); (1867, 1868); (1970, 1983); (2043, 2044);
    (2094, 2095); (2111, 2111); (2140, 2141); (2143, 2143); (2155, 2159);
    (2191, 2199); (2274, 2274); (2436, 2436); (2445, 2446); (2449, 2450);
    (2473, 2473); (2481, 2481); (2483, 2485); (2490, 2491); (2501, 2502);
    (2505, 2506); (2511, 2518); (2520, 2523); (2526, 2526); (2532, 2533);
    (2559, 2560); (2564, 2564); (2571, 2574); (2577, 2578); (2601, 2601);
    (2609, 2609); (2612, 2612); (2615, 2615); (2618, 2619); (2621, 2621);
    (2627, 2630); (2633, 2634); (2638, 2640); (2642, 2648); (2653, 2653);
    (2655, 2661); (2679, 2688); (2692, 2692); (2702, 2702); (2706, 2706);
    (2729, 2729); (2737, 2737); (2740, 2740); (2746, 2747); (2758, 2758);
    (2762, 2762); (2766, 2767); (2769, 2783); (2788, 2789); (2802, 2808);
    (2816, 2816); (2820, 2820); (2829, 2830); (2833, 2834); (2857, 2857);
    (2865, 2865); (2868, 2868); (2874, 2875); (2885, 2886); (2889, 2890);
    (2894, 2900); (2904, 2907); (2910, 2910); (2916, 2917); (2936, 2945);
    (2948, 2948); (2955, 2957); (2961, 2961); (2966, 2968); (2971, 2971);
    (2973, 2973); (2976, 2978); (2981, 2983); (2987, 2989); (3002, 3005);
    (3011, 3013); (3017, 3017); (3022, 3023); (3025, 3030); (3032, 3045);
    (3067, 3071); (3085, 3085); (3089, 3089); (3113, 3113); (3130, 3131);
    (3141, 3141); (3145, 3145); (3150, 3156); (3159, 3159); (3163, 3164);
    (3166, 3167); (3172, 3173); (3184, 3190); (3213, 3213); (3217, 3217);
    (3241, 3241); (3252, 3252); (3258, 3259); (3269, 3269); (3273, 3273);
    (3278, 3284); (3287, 3292); (3295, 3295); (3300, 3301); (3312, 3312);
    (3315, 3327); (3341, 3341); (3345, 3345); (3397, 3397); (3401, 3401);
    (3408, 3411); (3428, 3429); (3456, 3456); (3460, 3460); (3479, 3481);
    (3506, 3506); (3516, 3516); (3518, 3519); (3527, 3529); (3531, 3534);
    (3541, 3541); (3543, 3543); (3552, 3557); (3568, 3569); (3573, 3584);
    (3643, 3646); (3676, 3712); (3715, 3715); (3717, 3717); (3723, 3723);
    (3748, 3748); (3750, 3750); (3774, 3775); (3781, 3781); (3783, 3783);
    (3790, 3791); (3802, 3803); (3808, 3839); (3912, 3912); (3949, 3952);
    (3992, 3992); (4029, 4029); (4045, 4045); (4059, 4095); (4294, 4294);
    (4296, 4300); (4302, 4303); (4681, 4681); (4686, 4687); (4695, 4695);
    (4697, 4697); (4702, 4703); (4745, 4745); (4750, 4751); (4785, 4785);
    (4790, 4791); (4799, 4799); (4801, 4801); (4806, 4807); (4823, 4823);
    (4881, 4881); (4886, 4887); (4955, 4956); (4989, 4991); (5018, 5023);
    (5110, 5111); (5118, 5119); (5760, 5760); (5789, 5791); (5881, 5887);
    (5910, 5918); (5943, 5951); (5972, 5983); (5997, 5997); (6001, 6001);
    (6004, 6015); (6110, 6111); (6122, 6127); (6138, 6143); (6158, 6158);
    (6170, 6175); (6265, 6271); (6315, 6319); (6390, 6399); (6431, 6431);
    (6444, 6447); (6460, 6463); (6465, 6467); (6510, 6511); (6517, 6527);
    (6572, 6575); (6602, 6607); (6619, 6621); (6684, 6685); (6751, 6751);
    (6781, 6782); (6794, 6799); (6810, 6815); (6830, 6831); (6863, 6911);
    (6989, 6991); (7039, 7039); (7156, 7163); (7224, 7226); (7242, 7244);
    (7305, 7311); (7355, 7356); (7368, 7375); (7419, 7423); (7958, 7959);
    (7966, 7967); (8006, 8007); (8014, 8015); (8024, 8024); (8026, 8026);
    (8028, 8028); (8030, 8030); (8062, 8063); (8117, 8117); (8133, 8133);
    (8148, 8149); (8156, 8156); (8176, 8177); (8181, 8181); (8191, 8207);
    (8232, 8239); (8287, 8303); (8306, 8307); (8335, 8335); (8349, 8351);
    (8385, 8399); (8433, 8447); (8588, 8591); (9255, 9279); (9291, 9311);
    (11124, 11125); (11158, 11158); (11508, 11512); (11558, 11558);
    (11560, 11564); (11566, 11567); (11624, 11630); (11633, 11646);
    (11671, 11679); (11687, 11687); (11695, 11695); (11703, 11703);
    (11711, 11711); (11719, 11719); (11727, 11727); (11735, 11735);
    (11743, 11743); (11870, 11903); (11930, 11930); (12020, 12031);
    (12246, 12271); (12284, 12288); (12352, 12352); (12439, 12440);
    (12544, 12548); (12592, 12592); (12687, 12687); (12772, 12783);
    (12831, 12831); (42125, 42127); (42183, 42191); (42540, 42559);
    (42744, 42751); (42955, 42959); (42962, 42962); (42964, 42964);
    (42970, 42993); (43053, 43055); (43066, 43071); (43128, 43135);
    (43206, 43213); (43226, 43231); (43348, 43358); (43389, 43391);
    (43470, 43470); (43482, 43485); (43519, 43519); (43575, 43583);
    (43598, 43599); (43610, 43611); (43715, 43738); (43767, 43776);
    (43783, 43784); (43791, 43792); (43799, 43807); (43815, 43815);
    (43823, 43823); (43884, 43887); (44014, 44015); (44026, 44031);
    (55204, 55215); (55239, 55242); (55292, 63743); (64110, 64111);
    (64218, 64255); (64263, 64274); (64280, 64284); (64311, 64311);
    (64317, 64317); (64319, 64319); (64322, 64322); (64325, 64325);
    (64451, 64466); (64912, 64913); (64968, 64974); (64976, 65007);
    (65050, 65055); (65107, 65107); (65127, 65127); (65132, 65135);
    (65141, 65141); (65277, 65280); (65471, 65473); (65480, 65481);
    (65488, 65489); (65496, 65497); (65501, 65503); (65511, 65511);
    (65519, 65531); (65534, 65535); (65548, 65548); (65575, 65575);
    (65595, 65595); (65598, 65598); (65614, 65615); (65630, 65663);
    (65787, 65791); (65795, 65798); (65844, 65846); (65935, 65935);
    (65949, 65951); (65953, 65999); (66046, 66175); (66205, 66207);
    (66257, 66271); (66300, 66303); (66340, 66348); (66379, 66383);
    (66427, 66431); (66462, 66462); (66500, 66503); (66518, 66559);
    (66718, 66719); (66730, 66735); (66772, 66775); (66812, 66815);
    (66856, 66863); (66916, 66926); (66939, 66939); (66955, 66955);
    (66963, 66963); (66966, 66966); (66978, 66978); (66994, 66994);
    (67002, 67002); (67005, 67071); (67383, 67391); (67414, 67423);
    (67432, 67455); (67462, 67462); (67505, 67505); (67515, 67583);
    (67590, 67591); (67593, 67593); (67638, 67638); (67641, 67643);
    (67645, 67646); (67670, 67670); (67743, 67750); (67760, 67807);
    (67827, 67827); (67830, 67834); (67868, 67870); (67898, 67902);
    (67904, 67967); (68024, 68027); (68048, 68049); (68100, 68100);
    (68103, 68107); (68116, 68116); (68120, 68120); (68150, 68151);
    (68155, 68158); (68169, 68175); (68185, 68191); (68256, 68287);
    (68327, 68330); (68343, 68351); (68406, 68408); (68438, 68439);
    (68467, 68471); (68498, 68504); (68509, 68520); (68528, 68607);
    (68681, 68735); (68787, 68799); (68851, 68857); (68904, 68911);
    (68922, 69215); (69247, 69247); (69290, 69290); (69294, 69295);
    (69298, 69375); (69416, 69423); (69466, 69487); (69514, 69551);
    (69580, 69599); (69623, 69631); (69710, 69713); (69750, 69758);
    (69821, 69821); (69827, 69839); (69865, 69871); (69882, 69887);
    (69941, 69941); (69960, 69967); (70007, 70015); (70112, 70112);
    (70133, 70143); (70162, 70162); (70207, 70271); (70279, 70279);
    (70281, 70281); (70286, 70286); (70302, 70302); (70314, 70319);
    (70379, 70383); (70394, 70399); (70404, 70404); (70413, 70414);
    (70417, 70418); (70441, 70441); (70449, 70449); (70452, 70452);
    (70458, 70458); (70469, 70470); (70473, 70474); (70478, 70479);
    (70481, 70486); (70488, 70492); (70500, 70501); (70509, 70511);
    (70517, 70655); (70748, 70748); (70754, 70783); (70856, 70863);
    (70874, 71039); (71094, 71095); (71134, 71167); (71237, 71247);
    (71258, 71263); (71277, 71295); (71354, 71359); (71370, 71423);
    (71451, 71452); (71468, 71471); (71495, 71679); (71740, 71839);
    (71923, 71934); (71943, 71944); (71946, 71947); (71956, 71956);
    (71959, 71959); (71990, 71990); (71993, 71994); (72007, 72015);
    (72026, 72095); (72104, 72105); (72152, 72153); (72165, 72191);
    (72264, 72271); (72355, 72367); (72441, 72703); (72713, 72713);
    (72759, 72759); (72774, 72783); (72813, 72815); (72848, 72849);
    (72872, 72872); (72887, 72959); (72967, 72967); (72970, 72970);
    (73015, 73017); (73019, 73019); (73022, 73022); (73032, 73039);
    (73050, 73055); (73062, 73062); (73065, 73065); (73103, 73103);
    (73106, 73106); (73113, 73119); (73130, 73439); (73465, 73647);
    (73649, 73663); (73714, 73726); (74650, 74751); (74863, 74863);
    (74869, 74879); (75076, 77711); (77811, 77823); (78895, 82943);
    (83527, 92159); (92729, 92735); (92767, 92767); (92778, 92781);
    (92863, 92863); (92874, 92879); (92910, 92911); (92918, 92927);
    (92998, 93007); (93018, 93018); (93026, 93026); (93048, 93052);
    (93072, 93759); (93851, 93951); (94027, 94030); (94088, 94094);
    (94112, 94175); (94181, 94191); (94194, 94207); (100344, 100351);
    (101590, 101631); (101641, 110575); (110580, 110580); (110588, 110588);
    (110591, 110591); (110883, 110927); (110931, 110947); (110952, 110959);
    (111356, 113663); (113771, 113775); (113789, 113791); (113801, 113807);
    (113818, 113819); (113824, 118527); (118574, 118575); (118599, 118607);
    (118724, 118783); (119030, 119039); (119079, 119080); (119155, 119162);
    (119275, 119295); (119366, 119519); (119540, 119551); (119639, 119647);
    (119673, 119807); (119893, 119893); (119965, 119965); (119968, 119969);
    (119971, 119972); (119975, 119976); (119981, 119981); (119994, 119994);
    (119996, 119996); (120004, 120004); (120070, 120070); (120075, 120076);
    (120085, 120085); (120093, 120093); (120122, 120122); (120127, 120127);
    (120133, 120133); (120135, 120137); (120145, 120145); (120486, 120487);
    (120780, 120781); (121484, 121498); (121504, 121504); (121520, 122623);
    (122655, 122879); (122887, 122887); (122905, 122906); (122914, 122914);
    (122917, 122917); (122923, 123135); (123181, 123183); (123198, 123199);
    (123210, 123213); (123216, 123535); (123567, 123583); (123642, 123646);
    (123648, 124895); (124903, 124903); (124908, 124908); (124911, 124911);
    (124927, 124927); (125125, 125126); (125143, 125183); (125260, 125263);
    (125274, 125277); (125280, 126064); (126133, 126208); (126270, 126463);
    (126468, 126468); (126496, 126496); (126499, 126499); (126501, 126502);
    (126504, 126504); (126515, 126515); (126520, 126520); (126522, 126522);
    (126524, 126529); (126531, 126534); (126536, 126536); (126538, 126538);
    (126540, 126540); (126544, 126544); (126547, 126547); (126549, 126550);
    (126552, 126552); (126554, 126554); (126556, 126556); (126558, 126558);
    (126560, 126560); (126563, 126563); (126565, 126566); (126571, 126571);
    (126579, 126579); (126584, 126584); (126589, 126589); (126591, 126591);
    (126602, 126602); (126620, 126624); (126628, 126628); (126634, 126634);
    (126652, 126703); (126706, 126975); (127020, 127023); (127124, 127135);
    (127151, 127152); (127168, 127168); (127184, 127184); (127222, 127231);
    (127406, 127461); (127491, 127503); (127548, 127551); (127561, 127567);
    (127570, 127583); (127590, 127743); (128728, 128732); (128749, 128751);
    (128765, 128767); (128884, 128895); (128985, 128991); (129004, 129007);
    (129009, 129023); (129036, 129039); (129096, 129103); (129114, 129119);
    (129160, 129167); (129198, 129199); (129202, 129279); (129620, 129631);
    (129646, 129647); (129653, 129655); (129661, 129663); (129671, 129679);
    (129709, 129711); (129723, 129727); (129734, 129743); (129754, 129759);
    (129768, 129775); (129783, 129791); (129939, 129939); (129995, 130031);
    (130042, 131071); (173792, 173823); (177977, 177983); (178206, 178207);
    (183970, 183983); (191457, 194559); (195102, 196607); (201547, 917759);
    (918000, 1114111) ]%N.

Definition unprintable (cp : N) : bool := in_ranges unprintable_ranges cp.

(** How [repr] writes one character between the quotes [q]. *)
Definition escape_char (q : ascii) (cp : N) : string :=
  if (cp =? code backslash)%N then String backslash (String backslash EmptyString)
  else if (cp =? code q)%N then String backslash (String q EmptyString)
  else if (cp =? 10)%N then String backslash "n"
  else if (cp =? 13)%N then String backslash "r"
  else if (cp =? 9)%N then String backslash "t"
  else if unprintable cp then
    if (cp <? 256)%N then String backslash ("x" +:+ hex 2 cp)
    else if (cp <? 65536)%N then String backslash ("u" +:+ hex 4 cp)
    else String backslash ("U" +:+ hex 8 cp)
  else encode cp.

(** [escape_from skip q s]: the characters of [s] after its first [skip]
    bytes, each as [repr] writes it. *)
Fixpoint escape_from (skip : nat) (q : ascii) (s : string) : string :=
  match s with
  | EmptyString => EmptyString
  | String c s' =>
      match skip with
      | S k => escape_from k q s'
      | 0 =>
          match head_char s with
          | Some (cp, k) => escape_char q cp +:+ escape_from k q s'
          | None => String c (escape_from 0 q s')
          end
      end
  end.

(** [repr(s)] on a string: single quotes, unless the string has a single
    quote and no double quote. *)
Definition repr_str (s : string) : string :=
  let q := if has_char squote s && negb (has_char dquote s) then dquote else squote in
  String q (escape_from 0 q s) +:+ String q EmptyString.

(** [repr(v)]. *)
Fixpoint py_repr (v : pyval) : string :=
  match v with
  | VNone => "None"
  | VBool b => if b then "True" else "False"
  | VInt z => int_str z
  | VStr s => repr_str s
  | VList l => "[" +:+ String.concat ", " (map py_repr l) +:+ "]"
  | VDict d =>
      "{" +:+
      String.concat ", "
        (map (fun kv => let '(k, x) := kv in repr_str k +:+ ": " +:+ py_repr x) d)
      +:+ "}"
  end.

(** [str(v)], which is what an f-string field [{v}] prints. *)
Definition py_format (v : pyval) : string :=
  match v with
  | VStr s => s
  | _ => py_repr v
  end.

(** [v[:n]]: strings and lists are sliced, any other value raises. *)
Definition py_slice_to (n : nat) (v : pyval) : result pyval :=
  match v with
  | VStr s => Ok (VStr (str_take n s))
  | VList l => Ok (VList (take n l))
  | VNone => Raise (OtherException "'NoneType' object is not subscriptable")
  | VBool _ => Raise (OtherException "'bool' object is not subscriptable")
  | VInt _ => Raise (OtherException "'int' object is not subscriptable")
  | VDict _ => Raise (OtherException "unhashable type: 'slice'")
  end.

(** [d.get(key)] and [d.get(key, dflt)]. *)
Definition dict_get (d : gmap string pyval) (key : string) : pyval :=
  default VNone (d !! key).
Definition dict_get_or (d : gmap string pyval) (key : string) (dflt : pyval) : pyval :=
  default dflt (d !! key).

(** ** The outside world *)

(** An HTTP response as the code reads it: [status_code], [text], and
    [json()], which may raise.  [J] is the shape the caller reads in the
    body. *)
Record response (J : Type) : Type := {
  status_code : Z;
  text : string;
  json : result J
}.
Arguments status_code {J} r.
Arguments text {J} r.
Arguments json {J} r.

(** One row of the table store: [{"id": ..., "fields": {...}}].
    [rec_fields] is [None] for a row without the key [fields]; by the
    contract of the store the entry, when present, is an object, and a row
    that breaks the contract is not a [record]. *)
Record record : Type := {
  rec_id : string;
  rec_fields : option (gmap string pyval)
}.

(** One search hit as a back end returns it. *)
Abbreviation entry := (gmap string pyval).

Record airtable_json : Type := { records : option (list record) }.
Record brave_web : Type := { results : option (list entry) }.
Record brave_json : Type := { web : option brave_web }.
Record serpapi_json : Type := { organic_results : option (list entry) }.
Record claude_json : Type := { content : option (list (gmap string pyval)) }.

(** What [ddgs.text(query, max_results=n)] does. *)
Inductive ddg_reply : Type :=
| DdgNotInstalled                   (* the import raises ImportError *)
| DdgRaises (e : exn)
| DdgResults (rs : list entry).

Record world : Type := {
  (* requests.get(base_url/table, headers) of fetch_table *)
  airtable_get : string -> string -> string -> result (response airtable_json);
  (* datetime.now() *)
  now : Z;
  (* os.getenv *)
  getenv : string -> option string;
  (* DDGS().text(query, max_results) *)
  ddgs_text : string -> nat -> ddg_reply;
  (* requests.get of web_search_brave: query, count, token *)
  brave_get : string -> nat -> string -> result (response brave_json);
  (* requests.get of web_search_serpapi: query, key, num *)
  serpapi_get : string -> string -> nat -> result (response serpapi_json);
  (* requests.post of ask_claude: key, system prompt, message *)
  anthropic_post : string -> string -> string -> result (response claude_json)
}.

Inductive provider : Type := DuckDuckGo | Brave | SerpAPI.

#[global] Instance provider_eq_dec : EqDecision provider.
Proof. solve_decision. Defined.

Inductive event : Type :=
| Fetched (table : string)                  (* a GET at the table store *)
| Entered (p : provider) (query : string)   (* web_search called the provider's method *)
| Queried (p : provider) (query : string)   (* the provider's back end was called *)
| Posted (system_prompt message : string).  (* the model API was called *)

(** A computation with the calls it made. *)
Definition traced (A : Type) : Type := list event * A.

Definition emit (e : event) : traced unit := ([e], tt).

#[global] Instance traced_ret : MRet traced := fun A a => ([], a).
#[global] Instance traced_bind : MBind traced := fun A B f m =>
  let '(t1, a) := m in
  let '(t2, b) := f a in
  ((t1 ++ t2)%list, b).

(** ** The session: the fields of a [VCDatabase] object *)

Record session : Type := {
  airtable_base_id : string;
  airtable_api_key : string;
  claude_api_key : option string;
  database_context : string;
  last_sync : option Z
}.

(** [__init__]. *)
Definition init (base_id api_key : string) (claude_key : option string) : session :=
  {| airtable_base_id := strip base_id;
     airtable_api_key := strip api_key;
     claude_api_key :=
       match claude_key with
       | Some k => if str_nonempty k then Some (strip k) else None
       | None => None
       end;
     database_context := EmptyString;
     last_sync := None |}.

(** ** Record fetcher *)

Definition fetch_table (w : world) (s : session) (table_name : string)
  : traced (list record) :=
  _ ← emit (Fetched table_name);
  mret
    match airtable_get w (airtable_base_id s) (airtable_api_key s) table_name with
    | Ok r =>
        if (status_code r =? 200)%Z then
          match json r with
          | Ok body => default [] (records body)
          | Raise _ => []
          end
        else []
    | Raise _ => []
    end.

Definition possible_names : list string :=
  [ "List of Cos"; "companies_full_history_safe"; "Companies";
    "Imported table"; "Portfolio Companies" ].

Fixpoint find_table_in (w : world) (s : session) (names : list string)
  : traced (list record) :=
  match names with
  | [] => mret []
  | name :: names' =>
      data ← fetch_table w s name;
      match data with
      | [] => find_table_in w s names'
      | _ :: _ => mret data
      end
  end.

Definition find_table (w : world) (s : session) : traced (list record) :=
  find_table_in w s possible_names.

(** ** Context builder *)

Definition header : string := "=== VC DATABASE ===" +:+ nl.

(** The five slots, each the [or]-chain that [create_context] assigns to the
    local variable of that name. *)
Definition company (fields : gmap string pyval) : pyval :=
  dict_get fields "company_name" ||| dict_get fields "Company Name" |||
  dict_get fields "Company" ||| dict_get fields "name" ||| VStr "Unknown".

Definition status (fields : gmap string pyval) : pyval :=
  dict_get fields "status" ||| dict_get fields "Status" |||
  dict_get fields "Current status" ||| dict_get fields "Current Status" |||
  VStr "".

Definition notes (fields : gmap string pyval) : pyval :=
  dict_get fields "notes" ||| dict_get fields "Notes" |||
  dict_get fields "call notes" ||| dict_get fields "Call Notes" |||
  dict_get fields "Call notes" ||| VStr "".

Definition date (fields : gmap string pyval) : pyval :=
  dict_get fields "date" ||| dict_get fields "Date" |||
  dict_get fields "Last Contact" ||| dict_get fields "last_contact" |||
  VStr "".

Definition summary (fields : gmap string pyval) : pyval :=
  dict_get fields "pitch_deck_summary" ||| dict_get fields "Pitch Deck Summary" |||
  dict_get fields "summary" ||| dict_get fields "Summary" |||
  dict_get fields "deck_summary" ||| dict_get fields "Deck Summary" |||
  VStr "".

(** [record.get("fields", {})].  The first loop of [create_context] reads
    the keys of these objects only to print them. *)
Definition fields_of (r : record) : gmap string pyval := default ∅ (rec_fields r).

(** The body of the second loop of [create_context]: what one record
    appends to [context]. *)
Definition append_record (context : list string) (r : record)
  : result (list string) :=
  let fields := fields_of r in
  let context := (context ++ [nl +:+ "Company: " +:+ py_format (company fields)])%list in
  let context :=
    if truthy (status fields)
    then (context ++ ["Status: " +:+ py_format (status fields)])%list
    else context in
  let context :=
    if truthy (date fields)
    then (context ++ ["Date: " +:+ py_format (date fields)])%list
    else context in
  context ←
    (if truthy (notes fields) then
       cut ← py_slice_to 500 (notes fields);
       mret (context ++ ["Notes: " +:+ py_format cut])%list
     else mret context);
  if truthy (summary fields) then
    cut ← py_slice_to 500 (summary fields);
    mret (context ++ ["Deck Summary: " +:+ py_format cut])%list
  else mret context.

Definition create_context (rs : list record) : result string :=
  context ← for_each append_record [header] rs;
  mret (String.concat nl context).

(** ** Sync *)

Definition sync_database (w : world) (s : session) : traced (session * bool) :=
  rs ← find_table w s;
  match rs with
  | [] => mret (s, false)
  | _ :: _ =>
      match create_context rs with
      | Ok context =>
          mret ({| airtable_base_id := airtable_base_id s;
                   airtable_api_key := airtable_api_key s;
                   claude_api_key := claude_api_key s;
                   database_context := context;
                   last_sync := Some (now w) |}, true)
      | Raise _ => mret (s, false)
      end
  end.

(** ** Search providers *)

Definition no_results : string := "No search results found.".

(** [if result:] on what a provider returns ([None] or a string). *)
Definition answered (r : option string) : bool :=
  match r with
  | Some s => str_nonempty s
  | None => false
  end.

Definition web_search_duckduckgo (w : world) (query : string)
  : traced (option string) :=
  match ddgs_text w query 3 with
  | DdgNotInstalled => mret None
  | DdgRaises _ => _ ← emit (Queried DuckDuckGo query); mret None
  | DdgResults rs =>
      _ ← emit (Queried DuckDuckGo query);
      let results :=
        map (fun r : entry =>
               let title := dict_get_or r "title" (VStr "No title") in
               let snippet := dict_get_or r "body" (VStr "No description") in
               let link := dict_get_or r "link" (VStr "") in
               "• " +:+ py_format title +:+ nl +:+ "  " +:+ py_format snippet
               +:+ nl +:+ "  Source: " +:+ py_format link) rs in
      mret (Some match results with
                 | [] => no_results
                 | _ :: _ => String.concat (nl +:+ nl) results
                 end)
  end.

Definition web_search_brave (w : world) (query : string)
  : traced (option string) :=
  let api_key := strip (default "" (getenv w "BRAVE_API_KEY")) in
  if negb (str_nonempty api_key) then mret None
  else
    _ ← emit (Queried Brave query);
    mret
      match brave_get w query 3 api_key with
      | Ok response =>
          if (status_code response =? 200)%Z then
            match json response with
            | Ok data =>
                let results :=
                  map (fun r : entry =>
                         let title := dict_get_or r "title" (VStr "No title") in
                         let snippet :=
                           dict_get_or r "description" (VStr "No description") in
                         let link := dict_get_or r "url" (VStr "") in
                         "• " +:+ py_format title +:+ nl +:+ "  "
                         +:+ py_format snippet +:+ nl +:+ "  Source: "
                         +:+ py_format link)
                      (take 3
                         (default []
                            (results (default {| results := None |} (web data))))) in
                Some match results with
                     | [] => no_results
                     | _ :: _ => String.concat (nl +:+ nl) results
                     end
            | Raise _ => None
            end
          else None
      | Raise _ => None
      end.

Definition web_search_serpapi (w : world) (query : string)
  : traced (option string) :=
  let api_key := strip (default "" (getenv w "SERPAPI_KEY")) in
  if negb (str_nonempty api_key) then mret None
  else
    _ ← emit (Queried SerpAPI query);
    mret
      match serpapi_get w query api_key 3 with
      | Ok response =>
          if (status_code response =? 200)%Z then
            match json response with
            | Ok data =>
                let results :=
                  map (fun r : entry =>
                         let title := dict_get_or r "title" (VStr "No title") in
                         let snippet :=
                           dict_get_or r "snippet" (VStr "No description") in
                         let link := dict_get_or r "link" (VStr "") in
                         "• " +:+ py_format title +:+ nl +:+ "  "
                         +:+ py_format snippet +:+ nl +:+ "  Source: "
                         +:+ py_format link)
                      (take 3 (default [] (organic_results data))) in
                Some match results with
                     | [] => no_results
                     | _ :: _ => String.concat (nl +:+ nl) results
                     end
            | Raise _ => None
            end
          else None
      | Raise _ => None
      end.

(** ** Search aggregator *)

Definition web_search (w : world) (query : string) : traced (option string) :=
  _ ← emit (Entered DuckDuckGo query);
  result ← web_search_duckduckgo w query;
  if answered result then mret result
  else
    _ ← emit (Entered Brave query);
    result ← web_search_brave w query;
    if answered result then mret result
    else
      _ ← emit (Entered SerpAPI query);
      result ← web_search_serpapi w query;
      if answered result then mret result
      else mret None.

(** ** Answer orchestrator *)

Definition search_terms : list string :=
  [ "news"; "latest"; "recent"; "current"; "market"; "competitor"; "research" ].

Definition should_search (message : string) : bool :=
  existsb (fun term => contains term (str_lower message)) search_terms.

(** The f-string of [ask_claude]. *)
Definition system_prompt (context : string) (web_results : option string) : string :=
  "You are helping analyze a VC fund's deal pipeline database." +:+ nl +:+ nl
  +:+ "DATABASE CONTEXT:" +:+ nl +:+ context +:+ nl +:+ nl
  +:+ (if answered web_results
       then "WEB SEARCH RESULTS:" +:+ nl +:+ default "" web_results +:+ nl
       else "")
  +:+ nl +:+ nl
  +:+ "Answer questions naturally using the database and web search results when available. Be conversational and insightful.".

(** The body of the [try] of [ask_claude], from the response on. *)
Definition read_answer (r : response claude_json) : result pyval :=
  if (status_code r =? 200)%Z then
    data ← json r;
    match content data with
    | Some (block :: _) =>
        match block !! "text" with
        | Some v => Ok v
        | None => Raise (OtherException "'text'")
        end
    | Some [] | None => Ok (VStr "Claude returned empty response")
    end
  else
    let error_msg :=
      if str_nonempty (text r) then str_take 200 (text r) else "Unknown error" in
    Ok (VStr ("Claude API error (" +:+ int_str (status_code r) +:+ "): " +:+ error_msg)).

(** The three [except] clauses of [ask_claude], in their order. *)
Definition on_exception (e : exn) : pyval :=
  match e with
  | Timeout _ => VStr "Request timed out. Please try again."
  | RequestException m => VStr ("Network error: " +:+ m)
  | ImportError m | OtherException m => VStr ("Error: " +:+ m)
  end.

Definition key_configured (s : session) : bool :=
  match claude_api_key s with
  | Some k => str_nonempty k
  | None => false
  end.

Definition ask_claude (w : world) (s : session) (message : string)
  : traced (session * pyval) :=
  if negb (key_configured s) then mret (s, VStr "Claude API not configured")
  else
    s ← (if negb (str_nonempty (database_context s))
         then r ← sync_database w s; mret (fst r)
         else mret s);
    web_results ← (if should_search message then web_search w message else mret None);
    let prompt := system_prompt (database_context s) web_results in
    _ ← emit (Posted prompt message);
    mret (s,
          match anthropic_post w (default "" (claude_api_key s)) prompt message
                ≫= read_answer with
          | Ok v => v
          | Raise e => on_exception e
          end).

(** ** Vocabulary of the specification *)

(** The alias table of each slot, in probing order. *)
Definition company_aliases : list string :=
  [ "company_name"; "Company Name"; "Company"; "name" ].
Definition status_aliases : list string :=
  [ "status"; "Status"; "Current status"; "Current Status" ].
Definition notes_aliases : list string :=
  [ "notes"; "Notes"; "call notes"; "Call Notes"; "Call notes" ].
Definition date_aliases : list string :=
  [ "date"; "Date"; "Last Contact"; "last_contact" ].
Definition summary_aliases : list string :=
  [ "pitch_deck_summary"; "Pitch Deck Summary"; "summary"; "Summary";
    "deck_summary"; "Deck Summary" ].

(** Probing a slot: the first alias that holds a truthy value wins. *)
Fixpoint probe (fields : gmap string pyval) (aliases : list string)
  (fallback : pyval) : pyval :=
  match aliases with
  | [] => fallback
  | a :: rest =>
      if truthy (dict_get fields a) then dict_get fields a
      else probe fields rest fallback
  end.

(** No alias of the table is a key of the record. *)
Definition absent (aliases : list string) (fields : gmap string pyval) : Prop :=
  Forall (fun a => fields !! a = None) aliases.

(** Every alias of the table is missing or holds a falsy value. *)
Definition unresolved (aliases : list string) (fields : gmap string pyval) : Prop :=
  Forall (fun a => truthy (dict_get fields a) = false) aliases.

(** An optional labelled line, and one whose value is cut first. *)
Definition labelled (label : string) (v : pyval) : list string :=
  if truthy v then [label +:+ py_format v] else [].

Definition clipped (label : string) (v : pyval) : result (list string) :=
  if truthy v then cut ← py_slice_to 500 v; mret [label +:+ py_format cut]
  else mret [].

(** The block of one record. *)
Definition block (fields : gmap string pyval) : result (list string) :=
  n ← clipped "Notes: " (notes fields);
  d ← clipped "Deck Summary: " (summary fields);
  mret ([nl +:+ "Company: " +:+ py_format (company fields)]
        ++ labelled "Status: " (status fields)
        ++ labelled "Date: " (date fields) ++ n ++ d)%list.

Fixpoint blocks (rs : list record) : result (list (list string)) :=
  match rs with
  | [] => mret []
  | r :: rs' => b ← block (fields_of r); bs ← blocks rs'; mret (b :: bs)
  end.

(** What [append_record] added to [context]. *)
Definition added (context context' : list string) : list string :=
  drop (length context) context'.

(** No line of [ls] starts with [label]. *)
Definition no_line (label : string) (ls : list string) : Prop :=
  Forall (fun line => String.prefix label line = false) ls.

(** The method of [VCDatabase] behind each provider. *)
Definition provider_run (w : world) (p : provider) (query : string)
  : traced (option string) :=
  match p with
  | DuckDuckGo => web_search_duckduckgo w query
  | Brave => web_search_brave w query
  | SerpAPI => web_search_serpapi w query
  end.



(** The result set the back end of [p] hands over: [None] when the provider
    is skipped (no token) or erroring (an exception, a status other than
    200, an unreadable body). *)
Definition hits (w : world) (p : provider) (query : string) : option (list entry) :=
  match p with
  | DuckDuckGo =>
      match ddgs_text w query 3 with
      | DdgResults rs => Some rs
      | DdgRaises _ | DdgNotInstalled => None
      end
  | Brave =>
      let key := strip (default "" (getenv w "BRAVE_API_KEY")) in
      if str_nonempty key then
        match brave_get w query 3 key with
        | Ok r =>
            if (status_code r =? 200)%Z then
              match json r with
              | Ok data =>
                  Some (default [] (results (default {| results := None |} (web data))))
              | Raise _ => None
              end
            else None
        | Raise _ => None
        end
      else None
  | SerpAPI =>
      let key := strip (default "" (getenv w "SERPAPI_KEY")) in
      if str_nonempty key then
        match serpapi_get w query key 3 with
        | Ok r =>
            if (status_code r =? 200)%Z then
              match json r with
              | Ok data => Some (default [] (organic_results data))
              | Raise _ => None
              end
            else None
        | Raise _ => None
        end
      else None
  end.

(** The key under which each back end names the snippet and the URL. *)
Definition snippet_key (p : provider) : string :=
  match p with
  | DuckDuckGo => "body"
  | Brave => "description"
  | SerpAPI => "snippet"
  end.

Definition link_key (p : provider) : string :=
  match p with
  | DuckDuckGo | SerpAPI => "link"
  | Brave => "url"
  end.

(** The (title, snippet, url) of a hit; a component may be missing. *)
Definition triple (p : provider) (r : entry)
  : option pyval * option pyval * option pyval :=
  (r !! "title", r !! snippet_key p, r !! link_key p).

(** The layout of one hit and of a result set, whoever answered. *)
Definition layout_entry (t : option pyval * option pyval * option pyval) : string :=
  "• " +:+ py_format (default (VStr "No title") t.1.1) +:+ nl +:+ "  "
  +:+ py_format (default (VStr "No description") t.1.2) +:+ nl +:+ "  Source: "
  +:+ py_format (default (VStr "") t.2).

Definition layout (ts : list (option pyval * option pyval * option pyval)) : string :=
  match ts with
  | [] => no_results
  | _ :: _ => String.concat (nl +:+ nl) (map layout_entry ts)
  end.

(** The hits a provider's own code keeps: the keyed ones slice the list,
    the keyless one leaves the limit to its library. *)
Definition kept (p : provider) (rs : list entry) : list entry :=
  match p with
  | DuckDuckGo => rs
  | Brave | SerpAPI => take 3 rs
  end.

(** The library behind the keyless provider honours [max_results]. *)
Definition honours_max_results (w : world) : Prop :=
  forall query n rs, ddgs_text w query n = DdgResults rs -> length rs <= n.

Definition preference : list provider := [DuckDuckGo; Brave; SerpAPI].





(** The provider methods a trace entered, and the back ends it called. *)
Definition entered (t : list event) : list provider :=
  omap (fun e => match e with Entered p _ => Some p | _ => None end) t.

Definition queried (t : list event) : list provider :=
  omap (fun e => match e with Queried p _ => Some p | _ => None end) t.



(** ** Sample data *)

Definition silent_world : world :=
  {| airtable_get := fun _ _ _ => Raise (RequestException "unreachable");
     now := 0;
     getenv := fun _ => None;
     ddgs_text := fun _ _ => DdgNotInstalled;
     brave_get := fun _ _ _ => Raise (RequestException "unreachable");
     serpapi_get := fun _ _ _ => Raise (RequestException "unreachable");
     anthropic_post := fun _ _ _ => Raise (Timeout "timed out") |}.

Definition acme_hit (p : provider) : entry :=
  {[ "title" := VStr "Acme raises"; snippet_key p := VStr "Series B"; link_key p := VStr "https://acme.example" ]}.

(** The keyless provider answers, and finds nothing; Brave holds a hit. *)
Definition empty_then_brave : world :=
  {| airtable_get := airtable_get silent_world;
     now := 0;
     getenv := fun name => if String.eqb name "BRAVE_API_KEY" then Some "k" else None;
     ddgs_text := fun _ _ => DdgResults [];
     brave_get := fun _ _ _ =>
       Ok {| status_code := 200; text := "";
             json := Ok {| web := Some {| results := Some [acme_hit Brave] |} |} |};
     serpapi_get := serpapi_get silent_world;
     anthropic_post := anthropic_post silent_world |}.


Definition acme_table (name : string) : result (response airtable_json) :=
  if String.eqb name "Companies" then
    Ok {| status_code := 200; text := "";
          json := Ok {| records := Some
            [ {| rec_id := "rec1";
                 rec_fields := Some {[ "Company" := VStr "Acme"; "Status" := VStr "Diligence";
                                       "Notes" := VStr "Met the founders" ]} |};
              {| rec_id := "rec2";
                 rec_fields := Some {[ "name" := VStr "Bolt"; "status" := VInt 0;
                                       "Summary" := VStr "Logistics" ]} |} ] |} |}
  else Ok {| status_code := 404; text := "not found"; json := Raise (OtherException "no body") |}.

Definition acme_world : world :=
  {| airtable_get := fun _ _ name => acme_table name;
     now := 1700000000;
     getenv := getenv empty_then_brave;
     ddgs_text := fun _ n => DdgResults (take n [acme_hit DuckDuckGo]);
     brave_get := brave_get empty_then_brave;
     serpapi_get := serpapi_get silent_world;
     anthropic_post := fun _ _ _ =>
       Ok {| status_code := 200; text := "";
             json := Ok {| content := Some [ {[ "type" := VStr "text"; "text" := VStr "Acme is in diligence." ]} ] |} |} |}.

Definition fresh : session := init "appBase" "patKey" (Some "sk-key").

(** A success body whose first block has a null [text]. *)
Definition null_text_world : world :=
  {| airtable_get := airtable_get acme_world;
     now := 0;
     getenv := getenv silent_world;
     ddgs_text := ddgs_text silent_world;
     brave_get := brave_get silent_world;
     serpapi_get := serpapi_get silent_world;
     anthropic_post := fun _ _ _ =>
       Ok {| status_code := 200; text := "";
             json := Ok {| content := Some [ {[ "type" := VStr "text"; "text" := VNone ]} ] |} |} |}.

(** A record with no field at all, and one whose status is the number 0. *)
Definition bare_record : record := {| rec_id := "rec0"; rec_fields := Some ∅ |}.
Definition bolt_fields : gmap string pyval :=
  {[ "name" := VStr "Bolt"; "status" := VInt 0; "Summary" := VStr "Logistics" ]}.
Definition bolt : record := {| rec_id := "rec2"; rec_fields := Some bolt_fields |}.


(** A record whose Notes field is a lookup column: a list with one long
    text. *)
Definition long_text : string := string_of_list_ascii (repeat "a"%char 600).
Definition lookup_notes : record :=
  {| rec_id := "rec9"; rec_fields := Some {[ "Notes" := VList [VStr long_text] ]} |}.
Definition numeric_notes : record :=
  {| rec_id := "rec8"; rec_fields := Some {[ "Notes" := VInt 7 ]} |}.

(** ** HTTP routes *)

(** What a route hands to the framework: the status and the object given
    to [jsonify]. *)
Definition reply : Type := (Z * gmap string pyval)%type.

(** [type(v).__name__]. *)
Definition type_name (v : pyval) : string :=
  match v with
  | VNone => "NoneType"
  | VBool _ => "bool"
  | VInt _ => "int"
  | VStr _ => "str"
  | VList _ => "list"
  | VDict _ => "dict"
  end.

(** The message of the AttributeError for [v.name]. *)
Definition no_attribute (v : pyval) (name : string) : string :=
  "'" +:+ type_name v +:+ "' object has no attribute '" +:+ name +:+ "'".

(** The route [/api/sync]; [db] is the module's global, [None] before
    [main] has set it. *)
Definition sync (w : world) (db : option session) : traced (option session * reply) :=
  match db with
  | Some s =>
      r ← sync_database w s;
      let success := r.2 in
      mret (Some r.1,
            (200%Z,
             {[ "success" := VBool success;
                "message" := VStr (if success then "Database synced" else "Sync failed") ]}))
  | None =>
      mret (None,
            (500%Z,
             {[ "success" := VBool false;
                "error" := VStr (no_attribute VNone "sync_database") ]}))
  end.

(** The route [/api/ask]; [request_json] is what [request.get_json()]
    does: it raises, or returns the body, [None] for a null body. *)
Definition ask (w : world) (db : option session)
  (request_json : result (option (gmap string pyval)))
  : traced (option session * reply) :=
  match request_json with
  | Ok (Some data) =>
      match dict_get_or data "message" (VStr "") with
      | VStr m =>
          let message := strip m in
          if negb (str_nonempty message)
          then mret (db, (400%Z, {[ "error" := VStr "No message" ]}))
          else
            match db with
            | Some s =>
                r ← ask_claude w s message;
                mret (Some r.1, (200%Z, {[ "response" := r.2 ]}))
            | None =>
                mret (None,
                      (500%Z, {[ "error" := VStr (no_attribute VNone "ask_claude") ]}))
            end
      | other =>
          mret (db, (500%Z, {[ "error" := VStr (no_attribute other "strip") ]}))
      end
  | Ok None => mret (db, (500%Z, {[ "error" := VStr (no_attribute VNone "get") ]}))
  | Raise e => mret (db, (500%Z, {[ "error" := VStr (exn_str e) ]}))
  end.

(** ** Further vocabulary *)

(** A value that [v[:500]] accepts. *)
Definition sliceable (v : pyval) : bool :=
  match v with
  | VStr _ | VList _ => true
  | VNone | VBool _ | VInt _ | VDict _ => false
  end.

(** A record whose notes and summary, where they resolve, can be cut. *)
Definition buildable (r : record) : bool :=
  (negb (truthy (notes (fields_of r))) || sliceable (notes (fields_of r)))
  && (negb (truthy (summary (fields_of r))) || sliceable (summary (fields_of r))).

(** The events of a trace that are model calls. *)
Definition posted (t : list event) : list (string * string) :=
  omap (fun e => match e with Posted p m => Some (p, m) | _ => None end) t.

(** The tables a trace fetched. *)
Definition fetched (t : list event) : list string :=
  omap (fun e => match e with Fetched n => Some n | _ => None end) t.


(** The two records of the sample table. *)
Definition acme_records : list record := (find_table acme_world fresh).2.

(** A session that holds a context already. *)
Definition synced : session := (sync_database acme_world fresh).2.1.

(** The model API answers 503 with a long body. *)
Definition overloaded_world : world :=
  {| airtable_get := airtable_get acme_world;
     now := 0;
     getenv := getenv silent_world;
     ddgs_text := ddgs_text silent_world;
     brave_get := brave_get silent_world;
     serpapi_get := serpapi_get silent_world;
     anthropic_post := fun _ _ _ =>
       Ok {| status_code := 503;
             text := string_of_list_ascii (repeat "x"%char 300);
             json := Raise (OtherException "no body") |} |}.

(** * Proofs *)

(** ** Python values *)

Lemma py_or_assoc (a b c : pyval) : (a ||| b) ||| c = a ||| (b ||| c).
Proof.
  unfold py_or. destruct (truthy a) eqn:Ha; [rewrite Ha |]; reflexivity.
Qed.

Lemma py_or_falsy (a b : pyval) : truthy a = false -> a ||| b = b.
Proof. unfold py_or. intros ->. reflexivity. Qed.

(** ** Strings *)

(** A slice has the characters asked for, or all of them. *)
Lemma length_str_take_min (n : nat) (s : string) :
  str_len (str_take n s) = Nat.min n (str_len s).
Proof.
  revert n. induction s as [|c s IH]; intros n; simpl; [lia |].
  destruct (is_cont c) eqn:Hc; simpl; rewrite ?Hc; [apply IH |].
  destruct n as [|n]; simpl; rewrite ?Hc, ?IH; reflexivity.
Qed.

Lemma length_str_take (n : nat) (s : string) : str_len (str_take n s) <= n.
Proof. rewrite length_str_take_min. lia. Qed.

Lemma str_take_short (n : nat) (s : string) :
  str_len s <= n -> str_take n s = s.
Proof.
  revert n. induction s as [|c s IH]; intros n; simpl; [reflexivity |].
  destruct (is_cont c); intros H.
  - f_equal. apply IH, H.
  - destruct n as [|n]; [lia |]. f_equal. apply IH. lia.
Qed.

Lemma str_take_prefix (n : nat) (s : string) :
  exists rest, s = str_take n s +:+ rest.
Proof.
  revert n. induction s as [|c s IH]; intros n; simpl.
  - exists EmptyString. reflexivity.
  - destruct (is_cont c).
    + destruct (IH n) as [rest Hr]. exists rest.
      change (String c s = String c (str_take n s +:+ rest)). congruence.
    + destruct n as [|n].
      * exists (String c s). reflexivity.
      * destruct (IH n) as [rest Hr]. exists rest.
        change (String c s = String c (str_take n s +:+ rest)). congruence.
Qed.

(** On ASCII text the characters are the bytes. *)
Lemma str_len_repeat (c : ascii) (n : nat) :
  is_cont c = false -> str_len (string_of_list_ascii (repeat c n)) = n.
Proof. intros Hc. induction n as [|n IH]; simpl; rewrite ?Hc, ?IH; reflexivity. Qed.

(** ** Slots are probes of their alias tables *)

Lemma company_probe fields :
  company fields = probe fields company_aliases (VStr "Unknown").
Proof. unfold company. rewrite !py_or_assoc. reflexivity. Qed.

Lemma status_probe fields : status fields = probe fields status_aliases (VStr "").
Proof. unfold status. rewrite !py_or_assoc. reflexivity. Qed.

Lemma notes_probe fields : notes fields = probe fields notes_aliases (VStr "").
Proof. unfold notes. rewrite !py_or_assoc. reflexivity. Qed.

Lemma date_probe fields : date fields = probe fields date_aliases (VStr "").
Proof. unfold date. rewrite !py_or_assoc. reflexivity. Qed.

Lemma summary_probe fields : summary fields = probe fields summary_aliases (VStr "").
Proof. unfold summary. rewrite !py_or_assoc. reflexivity. Qed.

Lemma probe_unresolved fields aliases fallback :
  unresolved aliases fields -> probe fields aliases fallback = fallback.
Proof.
  induction 1 as [|a rest Ha _ IH]; simpl; [reflexivity |].
  rewrite Ha. exact IH.
Qed.

Lemma absent_unresolved aliases fields :
  absent aliases fields -> unresolved aliases fields.
Proof.
  induction 1 as [|a rest Ha _ IH]; constructor; [| exact IH].
  unfold dict_get. rewrite Ha. reflexivity.
Qed.


(** ** The builder emits the blocks of the records, one after the other *)

Lemma append_record_block context r :
  append_record context r = b ← block (fields_of r); mret (context ++ b)%list.
Proof.
  unfold append_record, block, clipped, labelled.
  generalize (company (fields_of r)), (status (fields_of r)), (date (fields_of r)),
    (notes (fields_of r)), (summary (fields_of r)).
  intros c s d n m.
  destruct (truthy s), (truthy d), (truthy n), (truthy m); simpl;
    try destruct (py_slice_to 500 n); simpl;
    try destruct (py_slice_to 500 m); simpl;
    rewrite <- ?(assoc_L app); reflexivity.
Qed.

Lemma for_each_blocks context rs :
  for_each append_record context rs
  = bs ← blocks rs; mret (context ++ concat bs)%list.
Proof.
  revert context. induction rs as [|r rs IH]; intros context; simpl.
  - rewrite app_nil_r. reflexivity.
  - rewrite append_record_block. destruct (block (fields_of r)) as [b|e]; simpl;
      [| reflexivity].
    rewrite IH. destruct (blocks rs) as [bs|e]; simpl; [| reflexivity].
    rewrite <- (assoc_L app). reflexivity.
Qed.

Lemma create_context_blocks rs :
  create_context rs
  = bs ← blocks rs; mret (String.concat nl (header :: concat bs)).
Proof.
  unfold create_context. rewrite for_each_blocks.
  destruct (blocks rs); reflexivity.
Qed.

Lemma append_record_added context r context' :
  append_record context r = Ok context' ->
  block (fields_of r) = Ok (added context context').
Proof.
  rewrite append_record_block. destruct (block (fields_of r)) as [b|e]; simpl;
    [| discriminate].
  intros [= <-]. unfold added. rewrite drop_app_length. reflexivity.
Qed.

Lemma block_Forall (P : string -> Prop) fields b :
  block fields = Ok b ->
  P (nl +:+ "Company: " +:+ py_format (company fields)) ->
  (truthy (status fields) = true -> P ("Status: " +:+ py_format (status fields))) ->
  (truthy (date fields) = true -> P ("Date: " +:+ py_format (date fields))) ->
  (truthy (notes fields) = true ->
   forall cut, py_slice_to 500 (notes fields) = Ok cut -> P ("Notes: " +:+ py_format cut)) ->
  (truthy (summary fields) = true ->
   forall cut, py_slice_to 500 (summary fields) = Ok cut ->
   P ("Deck Summary: " +:+ py_format cut)) ->
  Forall P b.
Proof.
  unfold block, clipped, labelled. intros Hb Hc Hs Hd Hn Hm.
  destruct (truthy (notes fields)); simpl in Hb;
    [destruct (py_slice_to 500 (notes fields)) as [cn|]; simpl in Hb; [| discriminate] |];
    (destruct (truthy (summary fields)); simpl in Hb;
     [destruct (py_slice_to 500 (summary fields)) as [cm|]; simpl in Hb; [| discriminate] |]);
    injection Hb as <-;
    destruct (truthy (status fields)), (truthy (date fields)); simpl;
    repeat constructor; auto.
Qed.

(** The first line of a block is the company line. *)
Lemma block_head fields b :
  block fields = Ok b ->
  head b = Some (nl +:+ "Company: " +:+ py_format (company fields)).
Proof.
  unfold block. destruct (clipped "Notes: " (notes fields)); simpl; [| discriminate].
  destruct (clipped "Deck Summary: " (summary fields)); simpl; [| discriminate].
  intros [= <-]. reflexivity.
Qed.

(* A line under another label, and the slot's own line when the slot is falsy. *)
Ltac other_label := intros; reflexivity.
Ltac own_label H := rewrite H; discriminate.

(** A block that is built has no line for a slot that resolved to nothing. *)
Lemma no_status_line fields b :
  block fields = Ok b -> truthy (status fields) = false -> no_line "Status:" b.
Proof.
  intros Hb H. apply (block_Forall _ fields b Hb);
    [other_label | own_label H | other_label | other_label | other_label].
Qed.

Lemma no_date_line fields b :
  block fields = Ok b -> truthy (date fields) = false -> no_line "Date:" b.
Proof.
  intros Hb H. apply (block_Forall _ fields b Hb);
    [other_label | other_label | own_label H | other_label | other_label].
Qed.

Lemma no_notes_line fields b :
  block fields = Ok b -> truthy (notes fields) = false -> no_line "Notes:" b.
Proof.
  intros Hb H. apply (block_Forall _ fields b Hb);
    [other_label | other_label | other_label | own_label H | other_label].
Qed.

Lemma no_summary_line fields b :
  block fields = Ok b -> truthy (summary fields) = false -> no_line "Deck Summary:" b.
Proof.
  intros Hb H. apply (block_Forall _ fields b Hb);
    [other_label | other_label | other_label | other_label | own_label H].
Qed.

(** A text is cut to 500 characters; a list is cut to 500 items, and its
    printed form is not bounded. *)
Lemma clipped_text label s :
  clipped label (VStr s)
  = Ok (if str_nonempty s then [label +:+ str_take 500 s] else []).
Proof. unfold clipped. simpl. destruct (str_nonempty s); reflexivity. Qed.

Lemma text_slots_within_budget fields s t :
  notes fields = VStr s -> summary fields = VStr t ->
  block fields
  = Ok ([nl +:+ "Company: " +:+ py_format (company fields)]
        ++ labelled "Status: " (status fields)
        ++ labelled "Date: " (date fields)
        ++ (if str_nonempty s then ["Notes: " +:+ str_take 500 s] else [])
        ++ (if str_nonempty t then ["Deck Summary: " +:+ str_take 500 t] else []))%list
  /\ str_len (str_take 500 s) <= 500
  /\ str_len (str_take 500 t) <= 500.
Proof.
  intros Hs Ht. split; [| split; apply length_str_take].
  unfold block. rewrite Hs, Ht, !clipped_text.
  destruct (str_nonempty s), (str_nonempty t); reflexivity.
Qed.

(** Records with the same fields give the same context. *)
Lemma blocks_fields rs rs' :
  map fields_of rs = map fields_of rs' -> blocks rs = blocks rs'.
Proof.
  revert rs'. induction rs as [|r rs IH]; intros [|r' rs']; simpl;
    try discriminate; [reflexivity |].
  intros [= Hr Hrs]. rewrite Hr, (IH _ Hrs). reflexivity.
Qed.

Lemma create_context_fields rs rs' :
  map fields_of rs = map fields_of rs' -> create_context rs = create_context rs'.
Proof.
  intros H. rewrite !create_context_blocks, (blocks_fields _ _ H). reflexivity.
Qed.

Lemma blocks_Forall2 rs bs :
  blocks rs = Ok bs -> Forall2 (fun r b => block (fields_of r) = Ok b) rs bs.
Proof.
  revert bs. induction rs as [|r rs IH]; simpl; intros bs.
  - intros [= <-]. constructor.
  - destruct (block (fields_of r)) as [b|] eqn:Hb; simpl; [| discriminate].
    destruct (blocks rs) as [bs'|]; simpl; [| discriminate].
    intros [= <-]. constructor; auto.
Qed.

(** The context lists the blocks in the order of the records. *)
Lemma blocks_in_record_order rs s :
  create_context rs = Ok s ->
  exists bs,
    Forall2 (fun r b => block (fields_of r) = Ok b) rs bs /\
    s = String.concat nl (header :: concat bs).
Proof.
  rewrite create_context_blocks. destruct (blocks rs) as [bs|] eqn:Hbs; simpl;
    [| discriminate].
  intros [= <-]. exists bs. split; [apply blocks_Forall2; exact Hbs | reflexivity].
Qed.

(** The builder returns from every record whose notes and summary are texts,
    lists or falsy values. *)
Lemma append_record_returns context r :
  (truthy (notes (fields_of r)) = true ->
   exists v, py_slice_to 500 (notes (fields_of r)) = Ok v) ->
  (truthy (summary (fields_of r)) = true ->
   exists v, py_slice_to 500 (summary (fields_of r)) = Ok v) ->
  exists context', append_record context r = Ok context'.
Proof.
  intros Hn Hm. rewrite append_record_block. unfold block, clipped.
  destruct (truthy (notes (fields_of r)));
    [destruct (Hn eq_refl) as [v ->] |];
    (destruct (truthy (summary (fields_of r)));
     [destruct (Hm eq_refl) as [v' ->] |]); simpl; eauto.
Qed.

(** Without records the context is the header alone. *)
Example no_records_header_only : create_context [] = Ok header.
Proof. reflexivity. Qed.

(** C4, at a record whose Notes field is a list holding one text of 600
    characters: the builder returns, and the text it prints after the
    Notes label is the printed list, 604 characters long, so the budget of
    500 characters is not kept for a value that is not a text. *)
Theorem list_notes_exceed_budget :
  exists shown,
    create_context [lookup_notes]
    = Ok (String.concat nl [header; nl +:+ "Company: Unknown"; "Notes: " +:+ shown])
    /\ String.length shown = 604
    /\ str_len shown = 604.
Proof.
  eexists. split_and!; vm_compute; reflexivity.
Qed.

(** A number in the Notes field makes the builder raise. *)
Example numeric_notes_raise :
  create_context [numeric_notes]
  = Raise (OtherException "'int' object is not subscriptable").
Proof. reflexivity. Qed.

(** C5: whenever the builder returns from a record, a record with none of
    the company aliases adds the line Company: Unknown first, and a record
    with none of the aliases of the status, date, notes or summary slot adds
    no line with that label. *)
Theorem absent_aliases_unknown_or_omitted context r context' :
  append_record context r = Ok context' ->
  (absent company_aliases (fields_of r) ->
   head (added context context') = Some (nl +:+ "Company: Unknown")) /\
  (absent status_aliases (fields_of r) -> no_line "Status:" (added context context')) /\
  (absent date_aliases (fields_of r) -> no_line "Date:" (added context context')) /\
  (absent notes_aliases (fields_of r) -> no_line "Notes:" (added context context')) /\
  (absent summary_aliases (fields_of r) ->
   no_line "Deck Summary:" (added context context')).
Proof.
  intros H. apply append_record_added in H.
  repeat split; intros Ha; apply absent_unresolved in Ha.
  - rewrite (block_head _ _ H), company_probe, (probe_unresolved _ _ _ Ha).
    reflexivity.
  - apply (no_status_line _ _ H).
    rewrite status_probe, (probe_unresolved _ _ _ Ha). reflexivity.
  - apply (no_date_line _ _ H).
    rewrite date_probe, (probe_unresolved _ _ _ Ha). reflexivity.
  - apply (no_notes_line _ _ H).
    rewrite notes_probe, (probe_unresolved _ _ _ Ha). reflexivity.
  - apply (no_summary_line _ _ H).
    rewrite summary_probe, (probe_unresolved _ _ _ Ha). reflexivity.
Qed.

Lemma absent_aliases_unknown_or_omitted_witness :
  head (added [header] [header; nl +:+ "Company: Unknown"])
  = Some (nl +:+ "Company: Unknown")
  /\ no_line "Status:" (added [header] [header; nl +:+ "Company: Unknown"]).
Proof.
  destruct (absent_aliases_unknown_or_omitted [header] bare_record
              [header; nl +:+ "Company: Unknown"] eq_refl) as (Hc & Hs & _).
  split; [apply Hc | apply Hs]; repeat constructor.
Defined.



(** ** Sync *)

Lemma sync_database_cases w s :
  sync_database w s
  = ((find_table w s).1,
     match (find_table w s).2 with
     | [] => (s, false)
     | _ :: _ =>
         match create_context (find_table w s).2 with
         | Ok context =>
             ({| airtable_base_id := airtable_base_id s;
                 airtable_api_key := airtable_api_key s;
                 claude_api_key := claude_api_key s;
                 database_context := context;
                 last_sync := Some (now w) |}, true)
         | Raise _ => (s, false)
         end
     end).
Proof.
  unfold sync_database, mbind, traced_bind, mret, traced_ret.
  destruct (find_table w s) as [t [|r rs]]; simpl.
  - rewrite app_nil_r. reflexivity.
  - destruct (create_context (r :: rs)); rewrite app_nil_r; reflexivity.
Qed.

Lemma find_table_in_ext w1 w2 s1 s2 names :
  airtable_get w1 = airtable_get w2 ->
  airtable_base_id s1 = airtable_base_id s2 ->
  airtable_api_key s1 = airtable_api_key s2 ->
  find_table_in w1 s1 names = find_table_in w2 s2 names.
Proof.
  intros Hw Hb Hk. induction names as [|name names IH]; simpl; [reflexivity |].
  unfold fetch_table. rewrite Hw, Hb, Hk, IH. reflexivity.
Qed.

Lemma sync_keeps_credentials w s :
  airtable_base_id (sync_database w s).2.1 = airtable_base_id s /\
  airtable_api_key (sync_database w s).2.1 = airtable_api_key s /\
  claude_api_key (sync_database w s).2.1 = claude_api_key s.
Proof.
  rewrite sync_database_cases. simpl.
  destruct (find_table w s).2; [auto |].
  destruct (create_context _); auto.
Qed.

(** C3: a sync whose fetch finds no record returns the session as it was
    and reports false; a sync that reports false changed nothing; a sync
    that reports true had at least one record, and stored the context built
    from those records alone together with the time of the sync. *)
Theorem sync_failure_keeps_context w s s' ok :
  (sync_database w s).2 = (s', ok) ->
  ((find_table w s).2 = [] -> s' = s /\ ok = false) /\
  (ok = false -> s' = s) /\
  (ok = true ->
   (find_table w s).2 <> [] /\
   create_context (find_table w s).2 = Ok (database_context s') /\
   last_sync s' = Some (now w)).
Proof.
  rewrite sync_database_cases. simpl.
  destruct (find_table w s).2 as [|r rs] eqn:Hrs.
  - intros [= <- <-]. split; [auto | split; [auto | discriminate]].
  - destruct (create_context (r :: rs)) as [context|e] eqn:Hc.
    + intros [= <- <-]. split; [discriminate | split; [discriminate |]].
      intros _. split; [discriminate | split; reflexivity].
    + intros [= <- <-]. split; [discriminate | split; [auto | discriminate]].
Qed.

Lemma sync_failure_keeps_context_witness :
  (sync_database silent_world fresh).2.1 = fresh /\
  (find_table acme_world fresh).2 <> [] /\
  create_context (find_table acme_world fresh).2
  = Ok (database_context (sync_database acme_world fresh).2.1) /\
  last_sync (sync_database acme_world fresh).2.1 = Some 1700000000%Z.
Proof.
  split.
  - exact (proj1 (proj2 (sync_failure_keeps_context silent_world fresh
                           (sync_database silent_world fresh).2.1 false eq_refl))
             eq_refl).
  - exact (proj2 (proj2 (sync_failure_keeps_context acme_world fresh
                           (sync_database acme_world fresh).2.1 true eq_refl))
             eq_refl).
Defined.

(** C8: the context is a function of the fields of the records alone, and
    a second sync against the same table store gives the same report and
    stores the same context as the first. *)
Theorem sync_twice_same_context w1 w2 s :
  airtable_get w1 = airtable_get w2 ->
  let first := (sync_database w1 s).2 in
  let second := (sync_database w2 first.1).2 in
  database_context second.1 = database_context first.1 /\
  second.2 = first.2 /\
  (forall rs rs',
     map fields_of rs = map fields_of rs' -> create_context rs = create_context rs').
Proof.
  intros Hw. cbv zeta.
  destruct (sync_keeps_credentials w1 s) as (Hb & Hk & _).
  assert (Hft : find_table w2 (sync_database w1 s).2.1 = find_table w1 s).
  { unfold find_table. symmetry. apply find_table_in_ext; auto. }
  rewrite (sync_database_cases w2), Hft, (sync_database_cases w1 s). simpl.
  split; [| split; [| apply create_context_fields]].
  - destruct (find_table w1 s).2 as [|r rs]; [reflexivity |].
    destruct (create_context (r :: rs)); reflexivity.
  - destruct (find_table w1 s).2 as [|r rs]; [reflexivity |].
    destruct (create_context (r :: rs)); reflexivity.
Qed.

Lemma sync_twice_same_context_witness :
  database_context (sync_database acme_world (sync_database acme_world fresh).2.1).2.1
  = database_context (sync_database acme_world fresh).2.1.
Proof.
  exact (proj1 (sync_twice_same_context acme_world acme_world fresh eq_refl)).
Defined.

(** ** Search providers *)

Section Aggregator.

Context (w : world) (query : string).

Lemma layout_of_map p (f : entry -> string) rs :
  (forall r, f r = layout_entry (triple p r)) ->
  match map f rs with
  | [] => no_results
  | _ :: _ => String.concat (nl +:+ nl) (map f rs)
  end = layout (map (triple p) rs).
Proof.
  intros Hf. rewrite (map_ext _ _ Hf), <- (map_map (triple p) layout_entry).
  unfold layout. destruct (map (triple p) rs); reflexivity.
Qed.

(** What each provider method returns, in the words of the specification. *)
Lemma provider_run_result p :
  (provider_run w p query).2
  = (fun rs => layout (map (triple p) (kept p rs))) <$> hits w p query.
Proof.
  destruct p; simpl.
  - unfold web_search_duckduckgo. destruct (ddgs_text w query 3); try reflexivity.
    cbn. f_equal. apply (layout_of_map DuckDuckGo). reflexivity.
  - unfold web_search_brave.
    destruct (str_nonempty (strip (default "" (getenv w "BRAVE_API_KEY"))));
      [| reflexivity].
    cbn. destruct (brave_get w query 3 _) as [r|]; [| reflexivity].
    destruct (status_code r =? 200)%Z; [| reflexivity].
    destruct (json r) as [data|]; [| reflexivity].
    cbn. f_equal. apply (layout_of_map Brave). reflexivity.
  - unfold web_search_serpapi.
    destruct (str_nonempty (strip (default "" (getenv w "SERPAPI_KEY"))));
      [| reflexivity].
    cbn. destruct (serpapi_get w query _ 3) as [r|]; [| reflexivity].
    destruct (status_code r =? 200)%Z; [| reflexivity].
    destruct (json r) as [data|]; [| reflexivity].
    cbn. f_equal. apply (layout_of_map SerpAPI). reflexivity.
Qed.

(** The calls a provider method makes: its back end once, or nothing. *)
Lemma provider_run_trace p :
  (provider_run w p query).1 = [] \/ (provider_run w p query).1 = [Queried p query].
Proof.
  destruct p; simpl.
  - unfold web_search_duckduckgo. destruct (ddgs_text w query 3); cbn; auto.
  - unfold web_search_brave.
    destruct (str_nonempty (strip (default "" (getenv w "BRAVE_API_KEY")))); cbn; auto.
  - unfold web_search_serpapi.
    destruct (str_nonempty (strip (default "" (getenv w "SERPAPI_KEY")))); cbn; auto.
Qed.

Lemma str_nonempty_false s : str_nonempty s = false <-> s = "".
Proof. destruct s; simpl; split; congruence. Qed.




(** ** Search aggregator *)

Lemma web_search_cases :
  let d := provider_run w DuckDuckGo query in
  let b := provider_run w Brave query in
  let s := provider_run w SerpAPI query in
  web_search w query
  = if answered d.2 then (Entered DuckDuckGo query :: d.1, d.2)
    else if answered b.2
         then (Entered DuckDuckGo query :: d.1 ++ Entered Brave query :: b.1, b.2)
         else (Entered DuckDuckGo query :: d.1 ++ Entered Brave query :: b.1
               ++ Entered SerpAPI query :: s.1,
               if answered s.2 then s.2 else None).
Proof.
  unfold web_search. simpl provider_run. cbv zeta.
  destruct (web_search_duckduckgo w query) as [t1 r1].
  destruct (web_search_brave w query) as [t2 r2].
  destruct (web_search_serpapi w query) as [t3 r3].
  unfold mbind, traced_bind, mret, traced_ret, emit. simpl.
  destruct (answered r1); simpl.
  - rewrite app_nil_r. reflexivity.
  - destruct (answered r2); simpl.
    + rewrite app_nil_r. reflexivity.
    + destruct (answered r3); simpl; rewrite app_nil_r; reflexivity.
Qed.














End Aggregator.


(** With every provider down the answer is None; with the keyless provider
    up and empty it is the message. *)
Example absence_and_zero_results_differ :
  web_search silent_world "q"
  = ([Entered DuckDuckGo "q"; Entered Brave "q"; Entered SerpAPI "q"], None)
  /\ (web_search empty_then_brave "q").2 = Some "No search results found.".
Proof. split; reflexivity. Qed.

(** ** The three providers share one layout *)

Lemma kept_honoured w query rs :
  honours_max_results w -> hits w DuckDuckGo query = Some rs -> take 3 rs = rs.
Proof.
  intros Hw. simpl. destruct (ddgs_text w query 3) as [| |rs'] eqn:Hd; try discriminate.
  intros [= <-]. apply take_ge, (Hw _ _ _ Hd).
Qed.

Lemma map_take_triple p (rs : list entry) :
  map (triple p) (take 3 rs) = take 3 (map (triple p) rs).
Proof.
  generalize 3. intros n. revert rs.
  induction n as [|n IH]; intros [|r rs]; simpl; try reflexivity.
  rewrite IH. reflexivity.
Qed.

(** Under that contract every provider shows the first three triples. *)
Lemma provider_run_layout w p query rs :
  honours_max_results w ->
  hits w p query = Some rs ->
  (provider_run w p query).2 = Some (layout (take 3 (map (triple p) rs))).
Proof.
  intros Hw H. rewrite provider_run_result, H. simpl. f_equal. f_equal.
  rewrite <- map_take_triple. f_equal.
  destruct p; simpl; [symmetry; apply (kept_honoured w query rs Hw H) | |];
    reflexivity.
Qed.

Section Layout.

Context (w1 w2 : world).
Hypothesis honoured1 : honours_max_results w1.
Hypothesis honoured2 : honours_max_results w2.

(** C9: when the library behind the keyless provider honours its limit,
    each provider that has a result set returns the layout of the first
    three (title, snippet, url) triples of that set, so two providers whose
    triples agree return the same string, with at most three entries. *)
Theorem providers_share_layout q1 q2 p1 p2 rs1 rs2 :
  hits w1 p1 q1 = Some rs1 ->
  hits w2 p2 q2 = Some rs2 ->
  map (triple p1) rs1 = map (triple p2) rs2 ->
  (provider_run w1 p1 q1).2 = Some (layout (take 3 (map (triple p1) rs1))) /\
  (provider_run w2 p2 q2).2 = (provider_run w1 p1 q1).2 /\
  length (take 3 (map (triple p1) rs1)) <= 3.
Proof.
  intros H1 H2 Heq. split_and!.
  - apply provider_run_layout; assumption.
  - rewrite (provider_run_layout w1 p1 q1 rs1), (provider_run_layout w2 p2 q2 rs2), Heq
      by assumption.
    reflexivity.
  - rewrite length_take. lia.
Qed.

End Layout.

Lemma acme_world_honours : honours_max_results acme_world.
Proof. intros query n rs [= <-]. rewrite length_take. lia. Defined.

Lemma empty_then_brave_honours : honours_max_results empty_then_brave.
Proof. intros query n rs [= <-]. simpl. lia. Defined.

Lemma providers_share_layout_witness :
  (provider_run empty_then_brave Brave "acme").2
  = (provider_run acme_world DuckDuckGo "acme").2.
Proof.
  exact (proj1 (proj2 (providers_share_layout acme_world empty_then_brave
                         acme_world_honours empty_then_brave_honours
                         "acme" "acme" DuckDuckGo Brave
                         [acme_hit DuckDuckGo] [acme_hit Brave]
                         eq_refl eq_refl eq_refl))).
Defined.

(** ** Answer orchestrator *)

Lemma append_cons c (t post : string) : String c t +:+ post = String c (t +:+ post).
Proof. reflexivity. Qed.

Lemma prefix_spec (t s : string) :
  String.prefix t s = true <-> exists post, s = t +:+ post.
Proof.
  revert s. induction t as [|c t IH]; intros s.
  - split; [intros _; exists s; reflexivity | destruct s; reflexivity].
  - destruct s as [|d s]; simpl; [split; [discriminate | intros [post [=]]] |].
    destruct (ascii_dec c d) as [<- | Hne].
    + rewrite IH. split; intros [post H]; exists post; rewrite append_cons in *;
        congruence.
    + split; [discriminate | intros [post H]; rewrite append_cons in H; congruence].
Qed.

(** [contains] is the substring test. *)
Lemma contains_spec (t s : string) :
  contains t s = true <-> exists pre post, s = pre +:+ t +:+ post.
Proof.
  induction s as [|c s IH].
  - change (contains t "") with (String.prefix t "" || false).
    rewrite orb_false_r, prefix_spec. split.
    + intros [post H]. exists "", post. exact H.
    + intros [[|d pre] [post H]]; [exists post; exact H | discriminate].
  - change (contains t (String c s))
      with (String.prefix t (String c s) || contains t s).
    rewrite orb_true_iff, prefix_spec, IH. split.
    + intros [[post H] | (pre & post & H)].
      * exists "", post. exact H.
      * exists (String c pre), post. rewrite append_cons. congruence.
    + intros [[|d pre] [post H]].
      * left. exists post. exact H.
      * right. exists pre, post. rewrite append_cons in H. congruence.
Qed.

Lemma should_search_spec message :
  should_search message = true <->
  exists term, term ∈ search_terms /\ contains term (str_lower message) = true.
Proof.
  unfold should_search. rewrite existsb_exists.
  split; intros (term & Hin & H); exists term; split; auto;
    apply list_elem_of_In; exact Hin.
Qed.

Lemma find_table_in_trace w s names e :
  e ∈ (find_table_in w s names).1 -> exists name, e = Fetched name.
Proof.
  induction names as [|name names IH]; simpl.
  - intros H. inversion H.
  - match goal with
    | |- context [match ?d with [] => find_table_in _ _ _ | _ :: _ => _ end] =>
        destruct d
    end.
    + destruct (find_table_in w s names) as [t rs]. simpl in *.
      intros H. apply elem_of_cons in H as [-> | H]; eauto.
    + simpl. intros H. apply list_elem_of_singleton in H. eauto.
Qed.

Lemma sync_trace w s e :
  e ∈ (sync_database w s).1 -> exists name, e = Fetched name.
Proof. rewrite sync_database_cases. apply find_table_in_trace. Qed.







(** The strings of the failure classes differ from one another. *)
Lemma failure_strings_distinct m1 m2 m3 (r : response claude_json) :
  status_code r <> 200%Z ->
  exists api_error,
    read_answer r = Ok (VStr api_error) /\
    String.prefix "Claude API error (" api_error = true /\
    on_exception (Timeout m1) = VStr "Request timed out. Please try again." /\
    on_exception (RequestException m2) = VStr ("Network error: " +:+ m2) /\
    on_exception (OtherException m3) = VStr ("Error: " +:+ m3) /\
    api_error <> "Request timed out. Please try again." /\
    api_error <> "Network error: " +:+ m2 /\
    api_error <> "Error: " +:+ m3 /\
    api_error <> "Claude returned empty response" /\
    "Network error: " +:+ m2 <> "Request timed out. Please try again." /\
    "Network error: " +:+ m2 <> "Error: " +:+ m3 /\
    "Network error: " +:+ m2 <> "Claude returned empty response" /\
    "Error: " +:+ m3 <> "Request timed out. Please try again." /\
    "Error: " +:+ m3 <> "Claude returned empty response".
Proof.
  intros Hs. unfold read_answer. apply Z.eqb_neq in Hs. rewrite Hs.
  eexists. split; [reflexivity |].
  split; [apply prefix_spec; eexists; reflexivity |].
  split_and!; try reflexivity; rewrite ?append_cons; discriminate.
Qed.

(** A timeout, a status 500 and an empty content list give three strings. *)
Example three_failures :
  on_exception (Timeout "read timed out") = VStr "Request timed out. Please try again."
  /\ read_answer {| status_code := 500; text := "overloaded"; json := Raise (OtherException "") |}
     = Ok (VStr "Claude API error (500): overloaded")
  /\ read_answer {| status_code := 200; text := ""; json := Ok {| content := Some [] |} |}
     = Ok (VStr "Claude returned empty response").
Proof. repeat split. Qed.

(** C6, at a success body whose first content block has a null text: the
    orchestrator returns that null, where the claim asks for a non-empty
    string that names the failure. *)
Theorem null_text_is_returned :
  (ask_claude null_text_world fresh "What's Acme's status?").2.2 = VNone /\
  read_answer {| status_code := 200; text := "";
                 json := Ok {| content := Some [ {[ "text" := VStr "" ]} ] |} |}
  = Ok (VStr "").
Proof. split; vm_compute; reflexivity. Qed.

(** * Further properties *)

(** ** Record fetcher *)

Lemma fetch_table_trace w s name :
  fetch_table w s name = ([Fetched name], (fetch_table w s name).2).
Proof. reflexivity. Qed.

Lemma find_table_in_cons w s name names :
  find_table_in w s (name :: names)
  = match (fetch_table w s name).2 with
    | [] => (Fetched name :: (find_table_in w s names).1, (find_table_in w s names).2)
    | _ :: _ => ([Fetched name], (fetch_table w s name).2)
    end.
Proof.
  change (find_table_in w s (name :: names))
    with (data ← fetch_table w s name;
          match data with
          | [] => find_table_in w s names
          | _ :: _ => mret data
          end).
  pose proof (fetch_table_trace w s name) as Ht.
  destruct (fetch_table w s name) as [t d]. simpl in Ht. injection Ht as ->.
  unfold mbind, traced_bind, mret, traced_ret. simpl.
  destruct d; [destruct (find_table_in w s names) |]; reflexivity.
Qed.

Lemma find_table_in_first w s pre name post :
  Forall (fun n => (fetch_table w s n).2 = []) pre ->
  (fetch_table w s name).2 <> [] ->
  find_table_in w s (pre ++ name :: post)
  = (map Fetched (pre ++ [name]), (fetch_table w s name).2).
Proof.
  intros Hpre Hname. induction Hpre as [|n pre Hn _ IH].
  - simpl app. rewrite find_table_in_cons.
    destruct (fetch_table w s name).2; [congruence | reflexivity].
  - change ((n :: pre) ++ name :: post)%list with (n :: (pre ++ name :: post))%list.
    rewrite find_table_in_cons, Hn, IH. reflexivity.
Qed.

Lemma find_table_in_none w s names :
  ((find_table_in w s names).2 = [] <->
   Forall (fun n => (fetch_table w s n).2 = []) names) /\
  ((find_table_in w s names).2 = [] ->
   (find_table_in w s names).1 = map Fetched names).
Proof.
  induction names as [|n names [IH1 IH2]].
  - split; [split; [constructor | reflexivity] | reflexivity].
  - rewrite find_table_in_cons.
    destruct (fetch_table w s n).2 as [|r rs] eqn:Hn; simpl.
    + split.
      * rewrite IH1. split; [intros H; constructor; assumption |].
        intros H. inversion H; assumption.
      * intros H. rewrite (IH2 H). reflexivity.
    + split; [split |].
      * discriminate.
      * intros H. apply Forall_cons in H as [H _].
        change ((fetch_table w s n).2 = []) in H. congruence.
      * discriminate.
Qed.

Lemma find_table_in_prefix w s name names :
  exists n,
    1 <= n <= length (name :: names) /\
    (find_table_in w s (name :: names)).1 = map Fetched (take n (name :: names)).
Proof.
  revert name. induction names as [|n' names IH]; intros name;
    rewrite find_table_in_cons.
  - exists 1. split; [simpl; lia |].
    destruct (fetch_table w s name).2; reflexivity.
  - destruct (fetch_table w s name).2.
    + destruct (IH n') as (n & Hn & Ht). exists (S n). split; [simpl in *; lia |].
      change (Fetched name :: (find_table_in w s (n' :: names)).1
              = Fetched name :: map Fetched (take n (n' :: names))).
      rewrite Ht. reflexivity.
    + exists 1. split; [simpl; lia | reflexivity].
Qed.

(** X1: [find_table] returns the records of the first candidate name, in
    the order of [possible_names], whose fetch is not empty, and it has
    fetched the candidates up to that one and no other. *)
Theorem find_table_first_nonempty w s pre name post :
  possible_names = (pre ++ name :: post)%list ->
  Forall (fun n => (fetch_table w s n).2 = []) pre ->
  (fetch_table w s name).2 <> [] ->
  find_table w s = (map Fetched (pre ++ [name]), (fetch_table w s name).2).
Proof.
  intros Hsplit Hpre Hname. unfold find_table. rewrite Hsplit.
  apply find_table_in_first; assumption.
Qed.

Lemma find_table_first_nonempty_witness :
  find_table acme_world fresh
  = ([Fetched "List of Cos"; Fetched "companies_full_history_safe"; Fetched "Companies"],
     (fetch_table acme_world fresh "Companies").2).
Proof.
  apply (find_table_first_nonempty acme_world fresh
           ["List of Cos"; "companies_full_history_safe"] "Companies"
           ["Imported table"; "Portfolio Companies"] eq_refl).
  - repeat constructor.
  - discriminate.
Defined.

(** X2: [find_table] returns no record exactly when the fetch of every
    candidate name is empty (an exception, a status other than 200, an
    unreadable body or a body without records), and it has then fetched all
    five candidates, each once, in their order. *)
Theorem find_table_empty_iff_all_empty w s :
  ((find_table w s).2 = [] <->
   Forall (fun n => (fetch_table w s n).2 = []) possible_names) /\
  ((find_table w s).2 = [] -> (find_table w s).1 = map Fetched possible_names).
Proof. apply find_table_in_none. Qed.

(** ** Sync *)

(** X3: a sync talks to the table store only: its calls are fetches of
    the first n candidate names, in their order, for some n from 1 to 5;
    and it leaves the three credentials of the session as they were. *)
Theorem sync_only_fetches_candidates w s :
  (exists n, 1 <= n <= 5 /\
             (sync_database w s).1 = map Fetched (take n possible_names)) /\
  airtable_base_id (sync_database w s).2.1 = airtable_base_id s /\
  airtable_api_key (sync_database w s).2.1 = airtable_api_key s /\
  claude_api_key (sync_database w s).2.1 = claude_api_key s.
Proof.
  split; [| apply sync_keeps_credentials].
  rewrite sync_database_cases. unfold find_table, possible_names.
  exact (find_table_in_prefix w s "List of Cos"
           ["companies_full_history_safe"; "Companies"; "Imported table";
            "Portfolio Companies"]).
Qed.

(** ** Context builder *)

Lemma append_nil_r (s : string) : s +:+ "" = s.
Proof. induction s as [|c s IH]; [reflexivity |]. rewrite append_cons, IH. reflexivity. Qed.

Lemma append_assoc (a b c : string) : (a +:+ b) +:+ c = a +:+ b +:+ c.
Proof.
  induction a as [|x a IH]; [reflexivity |]. rewrite !append_cons, IH. reflexivity.
Qed.

Lemma clipped_returns label v :
  (exists l, clipped label v = Ok l) <-> negb (truthy v) || sliceable v = true.
Proof.
  unfold clipped. destruct (truthy v) eqn:Ht; simpl.
  - destruct v; simpl;
      (split; [intros [out H]; try discriminate; reflexivity
              | intros H; try discriminate; eauto]).
  - split; [reflexivity | intros _; exists []; reflexivity].
Qed.

Lemma block_returns r :
  (exists b, block (fields_of r) = Ok b) <-> buildable r = true.
Proof.
  unfold buildable.
  rewrite andb_true_iff, <- (clipped_returns "Notes: "),
    <- (clipped_returns "Deck Summary: ").
  unfold block. split.
  - intros [b Hb].
    destruct (clipped "Notes: " (notes (fields_of r))); simpl in Hb; [| discriminate].
    destruct (clipped "Deck Summary: " (summary (fields_of r))); simpl in Hb;
      [| discriminate].
    split; eexists; reflexivity.
  - intros [[n ->] [d ->]]. simpl. eexists; reflexivity.
Qed.

Lemma blocks_returns rs :
  (exists bs, blocks rs = Ok bs) <-> Forall (fun r => buildable r = true) rs.
Proof.
  induction rs as [|r rs IH]; simpl.
  - split; [constructor | eauto].
  - rewrite Forall_cons, <- IH, <- block_returns. split.
    + intros [bs H]. destruct (block (fields_of r)); simpl in H; [| discriminate].
      destruct (blocks rs); simpl in H; [| discriminate]. eauto.
    + intros [[b ->] [bs ->]]. simpl. eauto.
Qed.

(** X4: the builder returns a context exactly when, in every record, the
    notes and the summary are each falsy, a text or a list; one record with
    a number, a boolean or a dict there makes the whole call raise. *)
Theorem create_context_returns_iff rs :
  (exists s, create_context rs = Ok s) <-> Forall (fun r => buildable r = true) rs.
Proof.
  rewrite <- blocks_returns, create_context_blocks. split.
  - intros [s H]. destruct (blocks rs); simpl in H; [eauto | discriminate].
  - intros [bs ->]. simpl. eauto.
Qed.

Lemma Ok_inj {A : Type} (a b : A) : Ok a = Ok b -> a = b.
Proof. congruence. Qed.

Lemma blocks_app rs1 rs2 :
  blocks (rs1 ++ rs2)
  = bs1 ← blocks rs1; bs2 ← blocks rs2; mret (bs1 ++ bs2)%list.
Proof.
  induction rs1 as [|r rs1 IH]; simpl.
  - destruct (blocks rs2); reflexivity.
  - destruct (block (fields_of r)); simpl; [| reflexivity].
    rewrite IH. destruct (blocks rs1); simpl; [| reflexivity].
    destruct (blocks rs2); reflexivity.
Qed.

Lemma concat_cons_fold sep x l :
  String.concat sep (x :: l)
  = x +:+ fold_right (fun y acc => sep +:+ y +:+ acc) "" l.
Proof.
  revert x. induction l as [|y l IH]; intros x.
  - simpl. rewrite append_nil_r. reflexivity.
  - change (String.concat sep (x :: y :: l))
      with (x +:+ sep +:+ String.concat sep (y :: l)).
    rewrite IH. reflexivity.
Qed.

Lemma fold_lines_app sep l1 l2 :
  fold_right (fun y acc => sep +:+ y +:+ acc) "" (l1 ++ l2)
  = fold_right (fun y acc => sep +:+ y +:+ acc) "" l1
    +:+ fold_right (fun y acc => sep +:+ y +:+ acc) "" l2.
Proof.
  induction l1 as [|y l1 IH]; simpl; [reflexivity |].
  rewrite IH, !append_assoc. reflexivity.
Qed.

(** X5: the context of two record lists put end to end is the context of
    the first followed by the context of the second without its header; so
    the context of a table is a prefix of the context of the table with more
    rows at its end. *)
Theorem create_context_app rs1 rs2 s1 s2 :
  create_context rs1 = Ok s1 ->
  create_context rs2 = Ok s2 ->
  exists rest,
    s2 = header +:+ rest /\ create_context (rs1 ++ rs2) = Ok (s1 +:+ rest).
Proof.
  rewrite !create_context_blocks, blocks_app.
  unfold mbind, result_bind, mret, result_ret.
  destruct (blocks rs1) as [bs1|]; [| discriminate].
  destruct (blocks rs2) as [bs2|]; [| discriminate].
  intros H1 H2. apply Ok_inj in H1, H2. subst s1 s2. rewrite !concat_cons_fold.
  eexists. split; [reflexivity |].
  rewrite concat_app, fold_lines_app, append_assoc. reflexivity.
Qed.

Lemma create_context_app_witness :
  exists rest,
    "=== VC DATABASE ===" +:+ nl +:+ nl +:+ nl +:+ "Company: Unknown" = header +:+ rest /\
    create_context (acme_records ++ [bare_record])
    = Ok ((database_context synced) +:+ rest).
Proof.
  exact (create_context_app acme_records [bare_record] (database_context synced)
           ("=== VC DATABASE ===" +:+ nl +:+ nl +:+ nl +:+ "Company: Unknown")
           eq_refl eq_refl).
Defined.

Lemma probe_first fields pre a post fallback :
  unresolved pre fields ->
  truthy (dict_get fields a) = true ->
  probe fields (pre ++ a :: post) fallback = dict_get fields a.
Proof.
  intros Hpre Ha. induction Hpre as [|b pre Hb _ IH]; simpl.
  - rewrite Ha. reflexivity.
  - rewrite Hb. exact IH.
Qed.

(** X6: in each slot the aliases are tried in the order of the slot's
    table, and the first alias that holds a truthy value gives the slot,
    whatever the later aliases hold. *)
Theorem first_truthy_alias_wins fields pre a post :
  unresolved pre fields ->
  truthy (dict_get fields a) = true ->
  (company_aliases = (pre ++ a :: post)%list -> company fields = dict_get fields a) /\
  (status_aliases = (pre ++ a :: post)%list -> status fields = dict_get fields a) /\
  (date_aliases = (pre ++ a :: post)%list -> date fields = dict_get fields a) /\
  (notes_aliases = (pre ++ a :: post)%list -> notes fields = dict_get fields a) /\
  (summary_aliases = (pre ++ a :: post)%list -> summary fields = dict_get fields a).
Proof.
  intros Hpre Ha. split_and!; intros Hsplit.
  - rewrite company_probe, Hsplit. apply probe_first; assumption.
  - rewrite status_probe, Hsplit. apply probe_first; assumption.
  - rewrite date_probe, Hsplit. apply probe_first; assumption.
  - rewrite notes_probe, Hsplit. apply probe_first; assumption.
  - rewrite summary_probe, Hsplit. apply probe_first; assumption.
Qed.

Lemma first_truthy_alias_wins_witness : company bolt_fields = VStr "Bolt".
Proof.
  refine (proj1 (first_truthy_alias_wins bolt_fields
                   ["company_name"; "Company Name"; "Company"] "name" [] _ eq_refl)
            eq_refl).
  repeat constructor.
Defined.

(** X7: when the builder returns from a record whose notes are a
    non-empty text, the record adds the Notes line with the first 500
    characters of that text, and likewise the Deck Summary line for a
    summary that is a non-empty text; a text of at most 500 characters is
    shown whole, a longer one is cut to exactly 500 characters, and what is
    shown is always a prefix of the text. *)
Theorem text_slots_show_first_500 context r context' :
  append_record context r = Ok context' ->
  (forall s, notes (fields_of r) = VStr s -> s <> "" ->
             "Notes: " +:+ str_take 500 s ∈ added context context') /\
  (forall s, summary (fields_of r) = VStr s -> s <> "" ->
             "Deck Summary: " +:+ str_take 500 s ∈ added context context') /\
  (forall s, (str_len s <= 500 -> str_take 500 s = s) /\
             (500 <= str_len s -> str_len (str_take 500 s) = 500) /\
             exists rest, s = str_take 500 s +:+ rest).
Proof.
  intros H. apply append_record_added in H. unfold block in H.
  destruct (clipped "Notes: " (notes (fields_of r))) as [n|] eqn:Hn; simpl in H;
    [| discriminate].
  destruct (clipped "Deck Summary: " (summary (fields_of r))) as [d|] eqn:Hd;
    simpl in H; [| discriminate].
  injection H as H. rewrite <- H. split_and!.
  - intros s Hs Hne. rewrite Hs, clipped_text in Hn.
    destruct s; [congruence |]. injection Hn as <-.
    apply list_elem_of_further. rewrite !elem_of_app. right. right. left.
    apply list_elem_of_here.
  - intros s Hs Hne. rewrite Hs, clipped_text in Hd.
    destruct s; [congruence |]. injection Hd as <-.
    apply list_elem_of_further. rewrite !elem_of_app. right. right. right.
    apply list_elem_of_here.
  - intros s. split_and!.
    + apply str_take_short.
    + intros Hl. rewrite length_str_take_min. lia.
    + apply str_take_prefix.
Qed.

Lemma text_slots_show_first_500_witness :
  "Deck Summary: Logistics"
  ∈ added [header] [header; nl +:+ "Company: Bolt"; "Deck Summary: Logistics"].
Proof.
  refine (proj1 (proj2 (text_slots_show_first_500 [header] bolt
                          [header; nl +:+ "Company: Bolt"; "Deck Summary: Logistics"]
                          eq_refl))
            "Logistics" eq_refl _).
  discriminate.
Defined.

(** The cut counts characters, not bytes: the first two characters of a
    text whose second character is an e with an acute accent are three
    bytes. *)
Example slice_counts_characters :
  str_take 2 ("h" +:+ encode 233 +:+ "llo") = "h" +:+ encode 233 /\
  str_len (str_take 2 ("h" +:+ encode 233 +:+ "llo")) = 2 /\
  String.length (str_take 2 ("h" +:+ encode 233 +:+ "llo")) = 3.
Proof. split_and!; vm_compute; reflexivity. Qed.

(** ** Search *)

Ltac among :=
  let x := fresh "x" in
  let Hx := fresh "Hx" in
  intros x Hx;
  repeat (apply elem_of_cons in Hx as [-> | Hx]);
  try (apply elem_of_nil in Hx; destruct Hx);
  repeat first [apply list_elem_of_here | apply list_elem_of_further].

Lemma web_search_trace_shape w query :
  exists n qs,
    1 <= n <= 3 /\
    entered (web_search w query).1 = take n preference /\
    queried (web_search w query).1 = qs /\
    NoDup qs /\ qs ⊆ take n preference /\
    Forall (fun e => exists p, e = Entered p query \/ e = Queried p query)
      (web_search w query).1.
Proof.
  pose proof (web_search_cases w query) as Hws. cbv zeta in Hws. rewrite Hws.
  clear Hws.
  destruct (provider_run_trace w query DuckDuckGo) as [-> | ->],
    (provider_run_trace w query Brave) as [-> | ->],
    (provider_run_trace w query SerpAPI) as [-> | ->];
    (destruct (answered (provider_run w DuckDuckGo query).2);
     [exists 1 | destruct (answered (provider_run w Brave query).2);
                 [exists 2 | exists 3]]);
    eexists; (split; [lia |]); (split; [reflexivity |]); (split; [reflexivity |]);
    (split; [apply (bool_decide_unpack _); reflexivity |]);
    (split; [among |]);
    repeat constructor; eauto.
Qed.


Lemma layout_is_message ts : layout ts = no_results <-> ts = [].
Proof.
  destruct ts as [|t ts]; [split; reflexivity |].
  split; [| discriminate]. unfold layout. rewrite map_cons, concat_cons_fold.
  unfold layout_entry. rewrite !append_cons. discriminate.
Qed.

(** X9: a provider returns the message [No search results found.] exactly
    when its back end answered and the hits its code keeps are none, and it
    returns None exactly when it is skipped or erroring; so the message is
    never the layout of a hit. *)
Theorem no_results_message_means_no_hit w p query :
  ((provider_run w p query).2 = Some no_results <->
   exists rs, hits w p query = Some rs /\ kept p rs = []) /\
  ((provider_run w p query).2 = None <-> hits w p query = None).
Proof.
  rewrite provider_run_result. destruct (hits w p query) as [rs|]; simpl.
  - split; [| split; discriminate]. split.
    + intros [= H]. apply layout_is_message in H. exists rs. split; [reflexivity |].
      destruct (kept p rs); [reflexivity | discriminate].
    + intros (rs' & [= <-] & ->). reflexivity.
  - split; [| split; reflexivity]. split; [discriminate |].
    intros (rs & H & _). discriminate.
Qed.

(** ** Answer orchestrator *)

(** The model call of one question, from the session and the search answer. *)
Lemma ask_claude_cases w s message :
  key_configured s = true ->
  let sy := if str_nonempty (database_context s) then ([], s)
            else ((sync_database w s).1, (sync_database w s).2.1) in
  let se := if should_search message then web_search w message else ([], None) in
  let prompt := system_prompt (database_context sy.2) se.2 in
  ask_claude w s message
  = ((sy.1 ++ se.1 ++ [Posted prompt message])%list,
     (sy.2,
      match anthropic_post w (default "" (claude_api_key sy.2)) prompt message
            ≫= read_answer with
      | Ok v => v
      | Raise e => on_exception e
      end)).
Proof.
  intros Hk. cbv zeta. unfold ask_claude. rewrite Hk.
  unfold mbind, traced_bind, mret, traced_ret, emit. cbn [negb].
  destruct (str_nonempty (database_context s)); cbn [negb fst snd].
  - destruct (should_search message).
    + destruct (web_search w message) as [t r]. simpl.
      rewrite ?app_nil_r. reflexivity.
    + reflexivity.
  - destruct (sync_database w s) as [t0 [s1 ok]]. simpl.
    destruct (should_search message).
    + destruct (web_search w message) as [t r]. simpl.
      rewrite ?app_nil_r. reflexivity.
    + simpl. rewrite ?app_nil_r. reflexivity.
Qed.

Lemma ask_claude_no_key w s message :
  key_configured s = false ->
  ask_claude w s message = ([], (s, VStr "Claude API not configured")).
Proof. intros Hk. unfold ask_claude. rewrite Hk. reflexivity. Qed.

Lemma posted_app t1 t2 : posted (t1 ++ t2) = (posted t1 ++ posted t2)%list.
Proof. apply omap_app. Qed.

Lemma fetched_app t1 t2 : fetched (t1 ++ t2) = (fetched t1 ++ fetched t2)%list.
Proof. apply omap_app. Qed.

Lemma posted_sync w s : posted (sync_database w s).1 = [].
Proof.
  pose proof (sync_trace w s) as H.
  induction (sync_database w s).1 as [|e t IH]; [reflexivity |].
  destruct (H e (list_elem_of_here _ _)) as [name ->]. simpl.
  apply IH. intros e' He'. apply H, list_elem_of_further, He'.
Qed.

Lemma web_search_no_model_no_store w query :
  posted (web_search w query).1 = [] /\ fetched (web_search w query).1 = [].
Proof.
  destruct (web_search_trace_shape w query) as (_ & _ & _ & _ & _ & _ & _ & H).
  induction H as [|e t (p & [-> | ->]) _ [IH1 IH2]]; simpl; auto.
Qed.

(** The model calls of one question. *)
Lemma posted_ask_claude w s message :
  let out := ask_claude w s message in
  let wr := if should_search message then (web_search w message).2 else None in
  let prompt := system_prompt (database_context out.2.1) wr in
  posted out.1 = (if key_configured s then [(prompt, message)] else []) /\
  (key_configured s = true -> exists before, out.1 = (before ++ [Posted prompt message])%list).
Proof.
  cbv zeta. destruct (key_configured s) eqn:Hk.
  - pose proof (ask_claude_cases w s message Hk) as H. cbv zeta in H. rewrite H.
    clear H. cbn [fst snd]. split.
    + rewrite !posted_app.
      pose proof (posted_sync w s) as Hs.
      pose proof (proj1 (web_search_no_model_no_store w message)) as Hw.
      destruct (str_nonempty (database_context s)), (should_search message);
        cbn [fst snd]; rewrite ?Hs, ?Hw; reflexivity.
    + intros _. rewrite (assoc_L app).
      destruct (should_search message); eexists; reflexivity.
  - rewrite (ask_claude_no_key w s message Hk). split; [reflexivity | discriminate].
Qed.


(** X11: the prompt holds the context, word for word, and, when the
    search gave an answer, the heading of the web results and that answer;
    a search without an answer gives the prompt of a question without
    search. *)
Theorem prompt_holds_context_and_results context web_results :
  contains context (system_prompt context web_results) = true /\
  (forall r, web_results = Some r -> r <> "" ->
             contains ("WEB SEARCH RESULTS:" +:+ nl +:+ r +:+ nl)
               (system_prompt context web_results) = true) /\
  (answered web_results = false ->
   system_prompt context web_results = system_prompt context None).
Proof.
  unfold system_prompt. split_and!.
  - apply contains_spec.
    exists ("You are helping analyze a VC fund's deal pipeline database." +:+ nl +:+ nl
            +:+ "DATABASE CONTEXT:" +:+ nl).
    eexists. rewrite !append_assoc. reflexivity.
  - intros r -> Hr. destruct r as [|c r]; [congruence |]. cbn [answered str_nonempty default].
    apply contains_spec.
    exists ("You are helping analyze a VC fund's deal pipeline database." +:+ nl +:+ nl
            +:+ "DATABASE CONTEXT:" +:+ nl +:+ context +:+ nl +:+ nl).
    eexists. rewrite !append_assoc. reflexivity.
  - intros ->. reflexivity.
Qed.

(** X12: a question syncs first exactly when the key is set and the
    session holds an empty context; otherwise it fetches no table and
    leaves the session as it was. *)
Theorem question_syncs_only_empty_context w s message :
  let syncs := key_configured s && negb (str_nonempty (database_context s)) in
  (ask_claude w s message).2.1 = (if syncs then (sync_database w s).2.1 else s) /\
  fetched (ask_claude w s message).1
  = (if syncs then fetched (sync_database w s).1 else []).
Proof.
  cbv zeta. destruct (key_configured s) eqn:Hk; cbn [andb].
  - pose proof (ask_claude_cases w s message Hk) as H. cbv zeta in H. rewrite H.
    clear H. cbn [fst snd]. rewrite !fetched_app.
    pose proof (proj2 (web_search_no_model_no_store w message)) as Hw.
    destruct (str_nonempty (database_context s)), (should_search message);
      cbn [negb fst snd]; rewrite ?Hw; cbn [fetched omap app];
      rewrite ?app_nil_r; split; reflexivity.
  - rewrite (ask_claude_no_key w s message Hk). split; reflexivity.
Qed.



(** X14: when the model API answers with a status other than 200, other
    2xx statuses included, the answer is [Claude API error (<status>): ]
    followed by the first 200 characters of the reply body, or by
    [Unknown error] when the body is empty. *)
Theorem api_error_shows_200_characters w s message prompt r :
  key_configured s = true ->
  posted (ask_claude w s message).1 = [(prompt, message)] ->
  anthropic_post w (default "" (claude_api_key s)) prompt message = Ok r ->
  status_code r <> 200%Z ->
  exists shown,
    (ask_claude w s message).2.2
    = VStr ("Claude API error (" +:+ int_str (status_code r) +:+ "): " +:+ shown) /\
    str_len shown <= 200 /\
    (text r <> "" -> exists rest, shown = str_take 200 (text r) /\ text r = shown +:+ rest) /\
    (text r = "" -> shown = "Unknown error").
Proof.
  intros Hk Hposted Hpost Hst.
  pose proof (proj1 (posted_ask_claude w s message)) as Hp. cbv zeta in Hp.
  rewrite Hk, Hposted in Hp. injection Hp as Hp.
  pose proof (ask_claude_cases w s message Hk) as H. cbv zeta in H.
  assert (Hkey : claude_api_key (ask_claude w s message).2.1 = claude_api_key s).
  { rewrite H. cbn [fst snd]. destruct (str_nonempty (database_context s));
      [reflexivity | apply sync_keeps_credentials]. }
  rewrite H in Hp, Hkey |- *. cbn [fst snd] in Hp, Hkey |- *.
  destruct (should_search message); cbn [fst snd] in Hp |- *;
    rewrite Hkey, <- Hp, Hpost; unfold read_answer, mbind, result_bind;
    apply Z.eqb_neq in Hst; rewrite Hst;
    (destruct (text r) as [|c body] eqn:Ht; cbn [str_nonempty];
     [exists "Unknown error"; split_and!;
      [reflexivity | vm_compute; lia | congruence | reflexivity]
     | exists (str_take 200 (String c body)); split_and!;
       [reflexivity | apply length_str_take
       | intros _; destruct (str_take_prefix 200 (String c body)) as [rest Hr];
         exists rest; split; [reflexivity | exact Hr]
       | discriminate]]).
Qed.

Lemma api_error_shows_200_characters_witness :
  exists shown,
    (ask_claude overloaded_world synced "hello").2.2
    = VStr ("Claude API error (" +:+ "503" +:+ "): " +:+ shown) /\
    str_len shown <= 200.
Proof.
  destruct (api_error_shows_200_characters overloaded_world synced "hello"
              (system_prompt (database_context synced) None)
              {| status_code := 503;
                 text := string_of_list_ascii (repeat "x"%char 300);
                 json := Raise (OtherException "no body") |}
              eq_refl eq_refl eq_refl) as (shown & H1 & H2 & _).
  - discriminate.
  - exists shown. split; [exact H1 | exact H2].
Defined.

(** ** Session start *)

(** X15: a session starts with an empty context and no sync time, and
    its model key counts as set exactly when a key was given that is not
    blank; with no key, an empty key or a blank key, every question is
    answered [Claude API not configured] without any call. *)
Theorem blank_key_is_no_key base key claude_key :
  (key_configured (init base key claude_key) = true <->
   exists k, claude_key = Some k /\ strip k <> "") /\
  database_context (init base key claude_key) = "" /\
  last_sync (init base key claude_key) = None /\
  (key_configured (init base key claude_key) = false ->
   forall w message,
     ask_claude w (init base key claude_key) message
     = ([], (init base key claude_key, VStr "Claude API not configured"))).
Proof.
  split_and!; [| reflexivity | reflexivity | intros Hk w message;
                                           apply ask_claude_no_key, Hk].
  unfold key_configured, init. cbn [claude_api_key].
  destruct claude_key as [[|c k]|]; cbn [str_nonempty].
  - split; [discriminate | intros (k & [= <-] & H); exfalso; apply H; reflexivity].
  - split.
    + intros H. exists (String c k). split; [reflexivity |].
      intros E. rewrite E in H. discriminate.
    + intros (k' & [= <-] & H). destruct (strip (String c k)); [congruence | reflexivity].
  - split; [discriminate | intros (k & [=] & _)].
Qed.

(** ** Trigger words *)

Ltac each_byte c :=
  destruct c as [[] [] [] [] [] [] [] []].

Lemma lower_char_cont c : is_cont (lower_char c) = is_cont c.
Proof. each_byte c; reflexivity. Qed.

Lemma lower_char_high c : (code c <? 128)%N = false -> lower_char c = c.
Proof.
  each_byte c; intros H;
    first [vm_compute in H; discriminate H | reflexivity].
Qed.

Lemma lower_char_low c :
  (code (lower_char c) <? 128)%N = (code c <? 128)%N.
Proof. each_byte c; reflexivity. Qed.

Lemma ascii_not_cont c : (code c <? 128)%N = true -> is_cont c = false.
Proof.
  intros H. unfold is_cont. apply N.ltb_lt in H.
  apply andb_false_iff. left. apply N.leb_gt. exact H.
Qed.

(** An ASCII character is its own code point, and its lower case is that
    of the letters A to Z. *)
Lemma ascii_lower_cp c :
  (code c <? 128)%N = true ->
  (code c =? capital_sigma)%N = false /\
  String.concat EmptyString (map encode (lower_cp (code c)))
  = String (lower_char c) EmptyString.
Proof.
  each_byte c; intros H;
    first [vm_compute in H; discriminate H | split; vm_compute; reflexivity].
Qed.

(** The letters A to Z and their lower case are in the same classes. *)
Lemma ascii_lower_classes c :
  (code c <? 128)%N = true ->
  (code (lower_char c) =? capital_sigma)%N = false /\
  lower_cp (code (lower_char c)) = lower_cp (code c) /\
  case_ignorable (code (lower_char c)) = case_ignorable (code c) /\
  cased (code (lower_char c)) = cased (code c).
Proof.
  each_byte c; intros H;
    first [vm_compute in H; discriminate H | split_and!; vm_compute; reflexivity].
Qed.

Lemma head_char_ascii c s :
  (code c <? 128)%N = true -> head_char (String c s) = Some (code c, 0).
Proof. intros H. unfold head_char. cbv zeta. rewrite H. reflexivity. Qed.

(** The bytes that [head_char] counts are there. *)
Lemma head_char_continued c s cp k :
  head_char (String c s) = Some (cp, k) -> continued k s = true.
Proof.
  unfold head_char. cbv zeta.
  destruct (code c <? 128)%N; [intros [= _ <-]; reflexivity |].
  destruct (code c <? 194)%N; [discriminate |].
  destruct (code c <? 224)%N; [| destruct (code c <? 240)%N].
  - destruct s as [|d s]; [discriminate |].
    destruct (is_cont d) eqn:Hd; [| discriminate].
    intros [= _ <-]. simpl. rewrite Hd. reflexivity.
  - destruct s as [|d [|e s]]; try discriminate.
    destruct (is_cont d) eqn:Hd, (is_cont e) eqn:He; simpl; try discriminate.
    destruct (2048 <=? _)%N; [| discriminate].
    intros [= _ <-]. simpl. rewrite Hd, He. reflexivity.
  - destruct s as [|d [|e [|f s]]]; try discriminate.
    destruct (is_cont d) eqn:Hd, (is_cont e) eqn:He, (is_cont f) eqn:Hf;
      simpl; try discriminate.
    destruct (65536 <=? _)%N; simpl; [| discriminate].
    destruct (_ <? 1114112)%N; [| discriminate].
    intros [= _ <-]. simpl. rewrite Hd, He, Hf. reflexivity.
Qed.

(** Lowering the ASCII letters after a byte does not change the character
    that the byte starts. *)
Lemma head_char_lower_tail c s :
  head_char (String c (lower s)) = head_char (String c s).
Proof.
  assert (Hb : forall d, is_cont (lower_char d) = true -> lower_char d = d).
  { intros d Hd. rewrite lower_char_cont in Hd. apply lower_char_high.
    unfold is_cont in Hd. apply andb_true_iff in Hd as [Hd _].
    apply N.leb_le in Hd. apply N.ltb_ge. exact Hd. }
  unfold head_char. cbv zeta.
  destruct (code c <? 128)%N; [reflexivity |].
  destruct (code c <? 194)%N; [reflexivity |].
  destruct (code c <? 224)%N; [| destruct (code c <? 240)%N].
  - destruct s as [|d s]; [reflexivity |]. simpl lower. cbv beta iota.
    pose proof (Hb d) as Hd. rewrite lower_char_cont in Hd |- *.
    destruct (is_cont d); [rewrite Hd by reflexivity |]; reflexivity.
  - destruct s as [|d [|e s]]; try reflexivity. simpl lower. cbv beta iota.
    pose proof (Hb d) as Hd. pose proof (Hb e) as He.
    rewrite lower_char_cont in Hd, He. rewrite !lower_char_cont.
    destruct (is_cont d); [rewrite Hd by reflexivity | reflexivity].
    destruct (is_cont e); [rewrite He by reflexivity |]; reflexivity.
  - destruct s as [|d [|e [|f s]]]; try reflexivity. simpl lower. cbv beta iota.
    pose proof (Hb d) as Hd. pose proof (Hb e) as He. pose proof (Hb f) as Hf.
    rewrite lower_char_cont in Hd, He, Hf. rewrite !lower_char_cont.
    destruct (is_cont d); [rewrite Hd by reflexivity | reflexivity].
    destruct (is_cont e); [rewrite He by reflexivity | reflexivity].
    destruct (is_cont f); [rewrite Hf by reflexivity |]; reflexivity.
Qed.

Lemma head_char_lower c s :
  head_char (String (lower_char c) (lower s))
  = if (code c <? 128)%N then Some (code (lower_char c), 0)
    else head_char (String c s).
Proof.
  destruct (code c <? 128)%N eqn:Hc.
  - apply head_char_ascii. rewrite lower_char_low. exact Hc.
  - rewrite (lower_char_high c Hc). apply head_char_lower_tail.
Qed.

Lemma final_after_lower k s : final_after k (lower s) = final_after k s.
Proof.
  revert k. induction s as [|c s IH]; intros k; [reflexivity |].
  simpl lower. destruct k as [|k]; [| apply IH].
  change (final_after 0 (String c s))
    with (match head_char (String c s) with
          | Some (cp, k) =>
              if case_ignorable cp then final_after k s else negb (cased cp)
          | None => true
          end).
  change (final_after 0 (String (lower_char c) (lower s)))
    with (match head_char (String (lower_char c) (lower s)) with
          | Some (cp, k) =>
              if case_ignorable cp then final_after k (lower s)
              else negb (cased cp)
          | None => true
          end).
  rewrite head_char_lower. destruct (code c <? 128)%N eqn:Hc.
  - rewrite (head_char_ascii c s Hc).
    destruct (ascii_lower_classes c Hc) as (_ & _ & -> & ->).
    rewrite IH. reflexivity.
  - destruct (head_char (String c s)) as [[cp k]|]; [| reflexivity].
    rewrite IH. reflexivity.
Qed.

Lemma lower_from_0 p c s :
  lower_from 0 p (String c s)
  = match head_char (String c s) with
    | Some (cp, k) =>
        String.concat EmptyString
          (map encode
             (if (cp =? capital_sigma)%N
              then if p && final_after k s then [final_sigma] else [small_sigma]
              else lower_cp cp))
        +:+ lower_from k (if case_ignorable cp then p else cased cp) s
    | None => String c (lower_from 0 false s)
    end.
Proof. reflexivity. Qed.

(** The lower case of an ASCII character at the head of a text. *)
Lemma lower_from_ascii_head p c s :
  (code c <? 128)%N = true ->
  lower_from 0 p (String c s)
  = String (lower_char c)
      (lower_from 0 (if case_ignorable (code c) then p else cased (code c)) s).
Proof.
  intros Hc. rewrite lower_from_0, (head_char_ascii c s Hc).
  destruct (ascii_lower_cp c Hc) as [-> ->]. reflexivity.
Qed.

(** The lower case does not see the case of the ASCII letters. *)
Lemma lower_from_lower k p s : lower_from k p (lower s) = lower_from k p s.
Proof.
  revert k p. induction s as [|c s IH]; intros k p; [reflexivity |].
  simpl lower. destruct k as [|k]; [| apply IH].
  destruct (code c <? 128)%N eqn:Hc.
  - rewrite !lower_from_ascii_head by (rewrite ?lower_char_low; exact Hc).
    destruct (ascii_lower_classes c Hc) as (_ & _ & -> & ->).
    rewrite IH. f_equal. each_byte c; reflexivity.
  - rewrite !lower_from_0, head_char_lower, Hc.
    destruct (head_char (String c s)) as [[cp k]|].
    + rewrite final_after_lower, IH. reflexivity.
    + rewrite (lower_char_high c Hc), IH. reflexivity.
Qed.

(** On ASCII text [s.lower()] is the lower case of the letters A to Z,
    whatever comes after the text. *)
Lemma lower_from_ascii_text p word rest :
  ascii_text word = true ->
  exists p', lower_from 0 p (word +:+ rest) = lower word +:+ lower_from 0 p' rest.
Proof.
  revert p. induction word as [|c word IH]; intros p H.
  - exists p. reflexivity.
  - unfold ascii_text in H. simpl in H. apply andb_true_iff in H as [Hc H].
    rewrite append_cons, (lower_from_ascii_head _ _ _ Hc).
    destruct (IH (if case_ignorable (code c) then p else cased (code c)) H)
      as [p' Hp].
    exists p'. rewrite Hp. reflexivity.
Qed.

Lemma str_lower_ascii s : ascii_text s = true -> str_lower s = lower s.
Proof.
  intros H. destruct (lower_from_ascii_text false s EmptyString H) as [p' Hp].
  rewrite !append_nil_r in Hp. exact Hp.
Qed.

Lemma ascii_text_lower s : ascii_text (lower s) = ascii_text s.
Proof.
  unfold ascii_text. induction s as [|c s IH]; [reflexivity |].
  simpl. rewrite lower_char_low, IH. reflexivity.
Qed.

(** Whatever stands before an ASCII character, that character is read as
    a character of its own. *)
Lemma lower_from_reaches k p before c rest :
  (code c <? 128)%N = true ->
  continued k (before +:+ String c rest) = true ->
  exists out p',
    lower_from k p (before +:+ String c rest)
    = out +:+ lower_from 0 p' (String c rest).
Proof.
  intros Hc. revert k p. induction before as [|d before IH]; intros k p Hk.
  - destruct k as [|k].
    + exists EmptyString, p. reflexivity.
    + simpl in Hk. rewrite (ascii_not_cont c Hc) in Hk. discriminate.
  - rewrite append_cons in Hk |- *. destruct k as [|k].
    + rewrite lower_from_0.
      destruct (head_char (String d (before +:+ String c rest)))
        as [[cp k]|] eqn:Hh.
      * apply head_char_continued in Hh.
        destruct (IH k (if case_ignorable cp then p else cased cp) Hh)
          as (out & p' & Ho).
        eexists _, p'. rewrite Ho, append_assoc. reflexivity.
      * destruct (IH 0 false eq_refl) as (out & p' & Ho).
        exists (String d out), p'. rewrite Ho. reflexivity.
    + simpl in Hk. apply andb_true_iff in Hk as [_ Hk].
      destruct (IH k p Hk) as (out & p' & Ho).
      exists out, p'. exact Ho.
Qed.

(** A trigger word is a word of ASCII letters. *)
Lemma search_terms_ascii term :
  term ∈ search_terms -> ascii_text term = true /\ term <> "".
Proof.
  revert term. apply Forall_forall. repeat constructor; discriminate.
Qed.

(** X16: the trigger test does not depend on the case of ASCII letters,
    and a trigger word found anywhere in the question, in any case and
    inside a longer word too, triggers the search. *)
Theorem trigger_any_case_anywhere :
  (forall message, should_search (lower message) = should_search message) /\
  (forall before word after,
     lower word ∈ search_terms ->
     should_search (before +:+ word +:+ after) = true).
Proof.
  split.
  - intros message. unfold should_search, str_lower.
    rewrite lower_from_lower. reflexivity.
  - intros before word after Hw. apply should_search_spec.
    exists (lower word). split; [exact Hw |].
    apply search_terms_ascii in Hw as [Ha Hne]. rewrite ascii_text_lower in Ha.
    destruct word as [|c word]; [exfalso; apply Hne; reflexivity |].
    assert (Hc : (code c <? 128)%N = true).
    { unfold ascii_text in Ha. simpl in Ha. apply andb_true_iff in Ha as [Hc _].
      exact Hc. }
    unfold str_lower. rewrite append_cons.
    destruct (lower_from_reaches 0 false before c (word +:+ after) Hc eq_refl)
      as (out & p' & Ho).
    rewrite Ho, <- append_cons.
    destruct (lower_from_ascii_text p' (String c word) after Ha) as [p'' Hp].
    rewrite Hp. apply contains_spec. eauto.
Qed.

(** A question about marketing triggers the search. *)
Example marketing_triggers : should_search "How is their MARKETing going?" = true.
Proof. vm_compute. reflexivity. Qed.

(** So does the word market written with the Kelvin sign, whose lower case
    is the letter k. *)
Example kelvin_sign_triggers :
  should_search ("mar" +:+ encode 8490 +:+ "et size?") = true /\
  contains "market" (lower ("mar" +:+ encode 8490 +:+ "et size?")) = false.
Proof. split; vm_compute; reflexivity. Qed.

(** ** HTTP routes *)


(** A no-break space is a blank: a key of no-break spaces is no key, and
    a message of no-break spaces is answered 400. *)
Example no_break_space_is_blank :
  strip (encode 160 +:+ " x " +:+ encode 8239) = "x" /\
  key_configured (init "app" "key" (Some (encode 160))) = false /\
  (ask silent_world (Some fresh)
     (Ok (Some {[ "message" := VStr (encode 160) ]}))).2.2.1 = 400%Z.
Proof. split_and!; vm_compute; reflexivity. Qed.

(** X18: with a session, the sync route answers 200 whether the sync
    worked or not: the body carries the report of the sync and the message
    [Database synced] or [Sync failed], the calls are those of the sync,
    and after a failed sync the session is the one before; without a
    session it answers 500 and makes no call. *)
Theorem sync_route_reports_in_body w db :
  match db with
  | Some s =>
      sync w db
      = ((sync_database w s).1,
         (Some (sync_database w s).2.1,
          (200%Z,
           {[ "success" := VBool (sync_database w s).2.2;
              "message" := VStr (if (sync_database w s).2.2
                                 then "Database synced" else "Sync failed") ]})))
      /\ ((sync_database w s).2.2 = false -> (sync_database w s).2.1 = s)
  | None => (sync w db).1 = [] /\ (sync w db).2.2.1 = 500%Z
  end.
Proof.
  destruct db as [s|]; [| split; reflexivity]. split.
  - unfold sync, mbind, traced_bind, mret, traced_ret.
    destruct (sync_database w s) as [t [s' ok]]. cbn [fst snd].
    rewrite app_nil_r. reflexivity.
  - rewrite sync_database_cases. cbn [fst snd].
    destruct (find_table w s).2 as [|r rs]; [reflexivity |].
    destruct (create_context (r :: rs)); [discriminate | reflexivity].
Qed.

(** ** More on the fetcher, the builder and the aggregator *)

(** X19: a fetch makes one call to the table store, and it returns
    records exactly when the store answered 200 with a readable body that
    holds a non-empty records list; an exception, another status, an
    unreadable body, a body without records and an empty list all give the
    same empty result. *)
Theorem fetch_table_nonempty_iff w s name rs :
  rs <> [] ->
  (fetch_table w s name).1 = [Fetched name] /\
  ((fetch_table w s name).2 = rs <->
   exists r body,
     airtable_get w (airtable_base_id s) (airtable_api_key s) name = Ok r /\
     status_code r = 200%Z /\ json r = Ok body /\ records body = Some rs).
Proof.
  intros Hrs. split; [reflexivity |].
  change ((fetch_table w s name).2)
    with (match airtable_get w (airtable_base_id s) (airtable_api_key s) name with
          | Ok r =>
              if (status_code r =? 200)%Z then
                match json r with
                | Ok body => default [] (records body)
                | Raise _ => []
                end
              else []
          | Raise _ => []
          end).
  destruct (airtable_get w (airtable_base_id s) (airtable_api_key s) name) as [r|e].
  - destruct (status_code r =? 200)%Z eqn:Hst.
    + apply Z.eqb_eq in Hst. destruct (json r) as [body|e] eqn:Hj.
      * destruct (records body) as [rs'|] eqn:Hr; simpl.
        -- split.
           ++ intros <-. exists r, body. auto.
           ++ intros (r' & body' & [= <-] & _ & Hj' & Hr'). congruence.
        -- split; [congruence |].
           intros (r' & body' & [= <-] & _ & Hj' & Hr'). congruence.
      * split; [congruence |].
        intros (r' & body' & [= <-] & _ & Hj' & _). congruence.
    + apply Z.eqb_neq in Hst. split; [congruence |].
      intros (r' & body' & [= <-] & Hst' & _). congruence.
  - split; [congruence | intros (r' & body' & [=] & _)].
Qed.

Lemma fetch_table_nonempty_iff_witness :
  (fetch_table acme_world fresh "Companies").2 = acme_records.
Proof.
  refine (proj2 (proj2 (fetch_table_nonempty_iff acme_world fresh "Companies"
                          acme_records _)) _).
  - discriminate.
  - eexists _, _. split_and!; reflexivity.
Defined.

Lemma block_shape fields b :
  block fields = Ok b ->
  1 <= length b <= 5 /\
  head b = Some (nl +:+ "Company: " +:+ py_format (company fields)).
Proof.
  intros H. split; [| apply block_head, H]. revert H. unfold block, clipped, labelled.
  destruct (truthy (notes fields));
    [destruct (py_slice_to 500 (notes fields)); [| discriminate] |];
    (destruct (truthy (summary fields));
     [destruct (py_slice_to 500 (summary fields)); [| discriminate] |]);
    destruct (truthy (status fields)), (truthy (date fields));
    intros H; apply Ok_inj in H; subst b; simpl; lia.
Qed.

(** X20: a context that is built is the header followed by one block per
    record, in the order of the records; each block has from one to five
    lines and starts with the record's company line. *)
Theorem context_is_header_and_blocks rs s :
  create_context rs = Ok s ->
  exists bs,
    s = String.concat nl (header :: concat bs) /\
    Forall2 (fun r b =>
               1 <= length b <= 5 /\
               head b = Some (nl +:+ "Company: " +:+ py_format (company (fields_of r))))
      rs bs /\
    exists rest, s = header +:+ rest.
Proof.
  intros H. destruct (blocks_in_record_order rs s H) as (bs & Hbs & ->).
  exists bs. split_and!; [reflexivity | | rewrite concat_cons_fold; eauto].
  clear H. induction Hbs as [|r b rs bs Hb _ IH];
    [constructor | constructor; [apply block_shape, Hb | exact IH]].
Qed.

Lemma context_is_header_and_blocks_witness :
  exists rest, database_context synced = header +:+ rest.
Proof.
  destruct (context_is_header_and_blocks acme_records (database_context synced) eq_refl)
    as (bs & _ & _ & H).
  exact H.
Defined.


